(** * Keyword opportunity analyzer

    A shallow embedding of [KeywordOpportunityAnalyzer] (old-way.py):
    the scoring function, the in-place normalization of the keyword table,
    the threshold filter, the ranking, the summary, the loader and the
    export step.

    Conventions of the embedding.
    - A Python/NumPy float is idealised as a real number ([R]); the one
      non-finite value the code can meet, NaN, is [None] in an [option R].
    - A pandas exception is a value of [Exn]; code that may raise returns
      [Exn + A].
    - The table handed to [analyze_keywords] is a mutable object: the model
      returns the table as the call leaves it next to the call's outcome. *)

From Stdlib Require Import Reals Lra Lia ZArith List String Ascii Bool.
From Stdlib Require Import Permutation Sorted.
From Stdlib Require Import DecimalString.
Import ListNotations.
Local Open Scope R_scope.

(** ** Floating point primitives *)

(** [np.log10]. *)
Definition log10 (x : R) : R := ln x / ln 10.

(** [np.rint]: the nearest integer, a tie going to the even neighbour. *)
Definition rint (x : R) : Z :=
  let n := Zfloor x in
  let d := x - IZR n in
  if Rlt_dec d (1 / 2) then n
  else if Rlt_dec (1 / 2) d then (n + 1)%Z
  else if Z.even n then n else (n + 1)%Z.

(** [round(x, ndigits)] on a NumPy float: scale, [rint], scale back. *)
Definition round (x : R) (ndigits : nat) : R :=
  IZR (rint (x * 10 ^ ndigits)) / 10 ^ ndigits.

(** ** The scoring function *)

Module weights.
Definition volume : R := 0.4.
Definition competition : R := 0.4.
Definition cpc : R := 0.2.
End weights.

(** [calculate_opportunity_score], line by line. *)
Definition calculate_opportunity_score (search_volume competition cpc : R) : R :=
  let volume_score := log10 (Rmax search_volume 1) / 5 in
  let competition_score := 1 - competition in
  let cpc_score := Rmin (cpc / 10) 1 in
  let opportunity_score :=
    volume_score * weights.volume +
    competition_score * weights.competition +
    cpc_score * weights.cpc in
  round (opportunity_score * 100) 2.

(** The same call on cells that may be NaN: every operation of the body
    ([max] and [min] with the NaN as first argument, [np.log10], the
    arithmetic, [round]) hands a NaN through. *)
Definition score_cells (search_volume competition cpc : option R) : option R :=
  match search_volume, competition, cpc with
  | Some v, Some c, Some b => Some (calculate_opportunity_score v c b)
  | _, _, _ => None
  end.

(** The formula as the specification writes it. *)
Definition spec_score (v c b : R) : R :=
  round (100 * (0.4 * (log10 (Rmax v 1) / 5) + 0.4 * (1 - c) + 0.2 * Rmin (b / 10) 1)) 2.

(** ** Exceptions *)

(** A raised exception, as its class and its message. What else Python
    hangs on it (the traceback, and in [__context__] the exception that was
    being handled when it was raised) is not part of the embedding. *)
Inductive Exn : Type :=
| KeyError (label : string)       (* [df[label]] on a frame without that column *)
| AttributeError (msg : string)   (* the [.str] accessor on a column that holds no text *)
| ValueError (msg : string)
| IOError (msg : string)          (* whatever [pd.read_csv] raises; [msg] is [str(e)] *)
| Exception (msg : string).       (* the generic base class *)

(** [str(e)]. *)
Definition str (e : Exn) : string :=
  match e with
  | KeyError label => ("'" ++ label ++ "'")%string
  | AttributeError msg | ValueError msg | IOError msg | Exception msg => msg
  end.

(** An error is generic when its class is [Exception] itself: an
    [except ValueError] or [except KeyError] clause does not catch it. *)
Definition generic (e : Exn) : bool :=
  match e with Exception _ => true | _ => false end.

(** ** Columns and tables *)

(** A cell read back from a table. *)
Inductive cell : Type :=
| Str (s : string)
| Num (x : R)
| NaN.

(** A column as [pd.read_csv] makes it: text (an empty cell is NaN) when
    some cell is not a number, numeric otherwise. *)
Inductive Series : Type :=
| ObjectSeries (values : list (option string))
| Float64Series (values : list (option R)).

(** A table: its columns by label, in column order; the rows are indexed
    by position (a [RangeIndex]). *)
Definition DataFrame : Type := list (string * Series).

Definition columns (df : DataFrame) : list string := map fst df.

(** [label in df.columns]. *)
Definition has_column (cols : list string) (label : string) : bool :=
  existsb (String.eqb label) cols.

(** [df[label]]. *)
Fixpoint getitem (df : DataFrame) (label : string) : Exn + Series :=
  match df with
  | [] => inl (KeyError label)
  | (l, s) :: rest => if String.eqb l label then inr s else getitem rest label
  end.

(** [df[label] = s]: the column is replaced where it stands, or added last. *)
Fixpoint setitem (df : DataFrame) (label : string) (s : Series) : DataFrame :=
  match df with
  | [] => [(label, s)]
  | (l, s0) :: rest =>
      if String.eqb l label then (l, s) :: rest else (l, s0) :: setitem rest label s
  end.

Definition tolist (s : Series) : list cell :=
  match s with
  | ObjectSeries vs =>
      map (fun v => match v with Some t => Str t | None => NaN end) vs
  | Float64Series vs =>
      map (fun v => match v with Some x => Num x | None => NaN end) vs
  end.

(** [str.replace(pat, repl)] on one string, for a one-character [pat]
    (taken literally): every occurrence is replaced. *)
Fixpoint replace_char (pat : ascii) (repl : string) (s : string) : string :=
  match s with
  | EmptyString => EmptyString
  | String c s' =>
      if Ascii.eqb c pat then (repl ++ replace_char pat repl s')%string
      else String c (replace_char pat repl s')
  end.

(** [series.str.replace(pat, repl)]: NaN cells stay NaN; a numeric column
    has no [.str] accessor. *)
Definition str_replace (pat : ascii) (repl : string) (s : Series) : Exn + Series :=
  match s with
  | ObjectSeries vs => inr (ObjectSeries (map (option_map (replace_char pat repl)) vs))
  | Float64Series _ =>
      inl (AttributeError "Can only use .str accessor with string values!")
  end.

(** [s.endswith(suffix)]. *)
Definition endswith (s suffix : string) : bool :=
  (String.length suffix <=? String.length s)%nat &&
  String.eqb
    (substring (String.length s - String.length suffix) (String.length suffix) s)
    suffix.

(** ** Thresholds and rows *)

(** The analyzer object: the three thresholds set in [__init__]. *)
Record KeywordOpportunityAnalyzer : Type := {
  min_search_volume : R;
  max_competition : R;
  min_cpc : R
}.

(** One row of the normalized table: its index label (the position in the
    input) and the cells of the four required columns; what other columns
    the table has rides along untouched and is left out. *)
Record Row : Type := {
  label : nat;
  Keyword : cell;
  Avg_monthly_searches : option R;
  Competition : option R;
  Top_of_page_bid : option R
}.

(** A row of the result: the row with its added ['Opportunity Score']. *)
Record ScoredRow : Type := {
  row : Row;
  Opportunity_Score : option R
}.

(** The table [analyze_keywords] returns: column labels and rows in
    output order. *)
Record Opportunities : Type := {
  opp_columns : list string;
  opp_rows : list ScoredRow
}.

(** [series >= t] and [series <= t] on one cell: a NaN compares false. *)
Definition cell_ge (x : option R) (t : R) : bool :=
  match x with
  | Some v => if Rle_dec t v then true else false
  | None => false
  end.

Definition cell_le (x : option R) (t : R) : bool :=
  match x with
  | Some v => if Rle_dec v t then true else false
  | None => false
  end.

(** The rows of a table from its columns. *)
Fixpoint iterrows (i : nat) (kw : list cell) (vol comp bid : list (option R))
  : list Row :=
  match kw, vol, comp, bid with
  | k :: kw', v :: vol', c :: comp', b :: bid' =>
      {| label := i; Keyword := k; Avg_monthly_searches := v;
         Competition := c; Top_of_page_bid := b |}
      :: iterrows (S i) kw' vol' comp' bid'
  | _, _, _, _ => []
  end.

(** The ['Keyword'] cells of a table of [n] rows; [analyze_keywords] never
    reads that column, so a table without it is carried through. *)
Definition keyword_cells (df : DataFrame) (n : nat) : list cell :=
  match getitem df "Keyword" with
  | inr s => tolist s
  | inl _ => repeat NaN n
  end.

(** The order of ['Opportunity Score'] under [ascending=False]: larger
    first, NaN last. *)
Definition score_desc (a b : ScoredRow) : Prop :=
  match Opportunity_Score a, Opportunity_Score b with
  | Some x, Some y => y <= x
  | _, None => True
  | None, Some _ => False
  end.

(** ** A state and error monad for code that mutates the table *)

Definition M (A : Type) : Type := DataFrame -> (Exn + A) * DataFrame.

Definition ret {A} (a : A) : M A := fun df => (inr a, df).

Definition bind {A B} (m : M A) (k : A -> M B) : M B :=
  fun df =>
    match m df with
    | (inl e, df') => (inl e, df')
    | (inr a, df') => k a df'
    end.

Definition lift {A} (r : Exn + A) : M A := fun df => (r, df).

Definition df_get (label : string) : M Series := fun df => (getitem df label, df).

Definition df_set (label : string) (s : Series) : M unit :=
  fun df => (inr tt, setitem df label s).

Definition df_read : M DataFrame := fun df => (inr df, df).

Notation "x <- m ;; k" := (bind m (fun x => k))
  (at level 61, m at next level, right associativity).
Notation "m ;;; k" := (bind m (fun _ => k))
  (at level 61, right associativity).

(** ** The analyzer *)

Definition required_columns : list string :=
  ["Keyword"; "Avg. monthly searches"; "Competition";
   "Top of page bid (low range)"]%string.

Section Analyzer.

(** [pd.to_numeric] on one text cell: the number it denotes, or [None]
    where [errors='coerce'] puts a NaN. *)
Variable parse_float : string -> option R.

(** [DataFrame.sort_values('Opportunity Score', ascending=False)] with the
    default [kind='quicksort'], on the rows. The routine is pandas' and
    NumPy's, not the repository's: the theorems take it as it comes and use
    of it only that it returns the rows it was given. *)
Variable sort_values : list ScoredRow -> list ScoredRow.

(** [pd.read_csv]. *)
Variable read_csv : string -> Exn + DataFrame.

(** [errors='coerce'] on one cell of a text column: a NaN stays a NaN. *)
Definition coerce (v : option string) : option R :=
  match v with
  | Some t => parse_float t
  | None => None
  end.

(** [pd.to_numeric(series, errors='coerce')]. *)
Definition to_numeric (s : Series) : list (option R) :=
  match s with
  | ObjectSeries vs => map coerce vs
  | Float64Series vs => vs
  end.

(** [load_keyword_data]. *)
Definition load_keyword_data (filepath : string) : Exn + DataFrame :=
  let try :=
    match read_csv filepath with
    | inl e => inl e
    | inr df =>
        if negb (forallb (has_column (columns df)) required_columns)
        then inl (ValueError ("CSV must contain columns: "
                              ++ String.concat ", " required_columns))
        else inr df
    end in
  match try with
  | inl e => inl (Exception ("Error loading keyword data: " ++ str e))
  | inr df => inr df
  end.

(** The filter of [analyze_keywords] on one row. *)
Definition mask (self : KeywordOpportunityAnalyzer) (x : Row) : bool :=
  cell_ge (Avg_monthly_searches x) (min_search_volume self) &&
  cell_le (Competition x) (max_competition self) &&
  cell_ge (Top_of_page_bid x) (min_cpc self).

(** The [lambda] given to [apply]. *)
Definition add_score (x : Row) : ScoredRow :=
  {| row := x;
     Opportunity_Score :=
       score_cells (Avg_monthly_searches x) (Competition x) (Top_of_page_bid x) |}.

(** [analyze_keywords]: the three assignments change the caller's table;
    the filter, the scores and the sort work on a copy. *)
Definition analyze_keywords (self : KeywordOpportunityAnalyzer) : M Opportunities :=
  c <- df_get "Competition" ;;
  let comp := to_numeric c in
  df_set "Competition" (Float64Series comp) ;;;
  v <- df_get "Avg. monthly searches" ;;
  v' <- lift (str_replace "," "" v) ;;
  let vol := to_numeric v' in
  df_set "Avg. monthly searches" (Float64Series vol) ;;;
  b <- df_get "Top of page bid (low range)" ;;
  b' <- lift (str_replace "$" "" b) ;;
  let bid := to_numeric b' in
  df_set "Top of page bid (low range)" (Float64Series bid) ;;;
  df <- df_read ;;
  let rows := iterrows 0 (keyword_cells df (List.length vol)) vol comp bid in
  let opportunities := filter (mask self) rows in
  let scored := map add_score opportunities in
  ret {| opp_columns := columns df ++ ["Opportunity Score"%string];
         opp_rows := sort_values scored |}.

(** The rows of a table as [analyze_keywords] normalizes them. *)
Definition normalized_rows (df : DataFrame) : list Row :=
  match getitem df "Competition",
        getitem df "Avg. monthly searches",
        getitem df "Top of page bid (low range)" with
  | inr c, inr (ObjectSeries v), inr (ObjectSeries b) =>
      let vol := to_numeric (ObjectSeries (map (option_map (replace_char "," "")) v)) in
      let bid := to_numeric (ObjectSeries (map (option_map (replace_char "$" "")) b)) in
      iterrows 0 (keyword_cells df (List.length vol)) vol (to_numeric c) bid
  | _, _, _ => []
  end.

(** The table as [analyze_keywords] leaves it. *)
Definition normalized (df : DataFrame) : DataFrame :=
  match getitem df "Competition",
        getitem df "Avg. monthly searches",
        getitem df "Top of page bid (low range)" with
  | inr c, inr (ObjectSeries v), inr (ObjectSeries b) =>
      let vol := to_numeric (ObjectSeries (map (option_map (replace_char "," "")) v)) in
      let bid := to_numeric (ObjectSeries (map (option_map (replace_char "$" "")) b)) in
      setitem
        (setitem (setitem df "Competition" (Float64Series (to_numeric c)))
                 "Avg. monthly searches" (Float64Series vol))
        "Top of page bid (low range)" (Float64Series bid)
  | _, _, _ => df
  end.

End Analyzer.

(** A table [analyze_keywords] can work on: the competition column is
    there and the two columns it strips hold text. *)
Definition text_column (df : DataFrame) (label : string) : Prop :=
  exists vs, getitem df label = inr (ObjectSeries vs).

Definition analyzable (df : DataFrame) : Prop :=
  (exists c, getitem df "Competition" = inr c) /\
  text_column df "Avg. monthly searches" /\
  text_column df "Top of page bid (low range)".

(** ** The normalized fields of a row, from the cells as read *)

(** A text without the occurrences of one character, the other characters
    in their order. *)
Definition without (pat : ascii) (t : string) : string :=
  string_of_list_ascii
    (filter (fun a => negb (Ascii.eqb a pat)) (list_ascii_of_string t)).

(** The number a text cell stands for once the occurrences of one
    character are taken out of it; an empty cell stands for none. [parse]
    is the reading of one text by [pd.to_numeric]. *)
Definition stripped_number (parse : string -> option R) (pat : ascii)
  (raw : option string) : option R :=
  match raw with
  | Some t => parse (without pat t)
  | None => None
  end.

(** The number a cell of a column of either kind stands for. *)
Definition cell_number (parse : string -> option R) (raw : cell) : option R :=
  match raw with
  | Str t => parse t
  | Num x => Some x
  | NaN => None
  end.

(** [k] is the keyword of row [i]: the cell of the ['Keyword'] column, or
    nothing (NaN) in a table without that column. *)
Definition keyword_at (df : DataFrame) (i : nat) (k : cell) : Prop :=
  match getitem df "Keyword" with
  | inr s => nth_error (tolist s) i = Some k
  | inl _ => k = NaN
  end.

(** The bid text as the specification words its normalization: a leading
    currency symbol is dropped, and nothing else. The currency symbols
    among the first 256 code points are the dollar, cent, pound, currency
    and yen signs. *)
Definition currency_symbol (a : ascii) : bool :=
  let n := nat_of_ascii a in
  (n =? 36)%nat || ((162 <=? n) && (n <=? 165))%nat.

Definition strip_leading_currency (t : string) : string :=
  match t with
  | String a t' => if currency_symbol a then t' else t
  | EmptyString => EmptyString
  end.

(** ** Summary *)

Record Summary : Type := {
  total_opportunities : nat;
  avg_search_volume : option R;
  avg_competition : option R;
  avg_opportunity_score : option R;
  top_keywords : list cell
}.

(** The cells of a numeric column that are not NaN. *)
Fixpoint dropna (l : list (option R)) : list R :=
  match l with
  | [] => []
  | Some x :: l' => x :: dropna l'
  | None :: l' => dropna l'
  end.

Definition sum (l : list R) : R := fold_right Rplus 0 l.

(** [Series.mean()]: NaN cells are skipped; NaN when nothing is left. Over
    the reals the mean is the sum by the count, without the rounding of a
    float mean. *)
Definition mean (l : list (option R)) : option R :=
  match dropna l with
  | [] => None
  | xs => Some (sum xs / INR (List.length xs))
  end.

(** [opportunities[label]] on the result table. *)
Definition opp_getitem {A} (opp : Opportunities) (label : string)
  (f : ScoredRow -> A) : Exn + list A :=
  if has_column (opp_columns opp) label then inr (map f (opp_rows opp))
  else inl (KeyError label).

(** [opportunities.head(n)]. *)
Definition head (n : nat) (opp : Opportunities) : Opportunities :=
  {| opp_columns := opp_columns opp; opp_rows := firstn n (opp_rows opp) |}.

(** [generate_summary]; the dictionary's entries are evaluated in order. *)
Definition generate_summary (opportunities : Opportunities) : Exn + Summary :=
  let total := List.length (opp_rows opportunities) in
  match opp_getitem opportunities "Avg. monthly searches"
          (fun x => Avg_monthly_searches (row x)) with
  | inl e => inl e
  | inr vol =>
  match opp_getitem opportunities "Competition"
          (fun x => Competition (row x)) with
  | inl e => inl e
  | inr comp =>
  match opp_getitem opportunities "Opportunity Score" Opportunity_Score with
  | inl e => inl e
  | inr score =>
  match opp_getitem (head 5 opportunities) "Keyword" (fun x => Keyword (row x)) with
  | inl e => inl e
  | inr kws =>
      inr {| total_opportunities := total;
             avg_search_volume := mean vol;
             avg_competition := mean comp;
             avg_opportunity_score := mean score;
             top_keywords := kws |}
  end end end end.

(** ** Export *)

(** What [export_results] does to the outside: the file it writes and the
    line it prints. *)
Record Exported : Type := {
  written_path : string;
  written_table : Opportunities;
  printed : string
}.

(** [export_results]; [timestamp] is
    [datetime.now().strftime('%Y%m%d_%H%M%S')]. *)
Definition export_results (timestamp : string) (opportunities : Opportunities)
  (output_filepath : string) : Exported :=
  let filename := ("keyword_opportunities_" ++ timestamp ++ ".csv")%string in
  let output_filepath :=
    if negb (endswith output_filepath ".csv")
    then (output_filepath ++ ".csv")%string
    else output_filepath in
  {| written_path := output_filepath;
     written_table := opportunities;
     printed := ("Results exported to: " ++ output_filepath)%string |}.

(** ** Instances of the library functions, to run the model *)

(** A reader of plain decimal literals ([1200], [0.1], [2.50]): one of the
    forms [pd.to_numeric] accepts. *)
Definition digit_of (c : ascii) : option Z :=
  let n := nat_of_ascii c in
  if ((48 <=? n) && (n <=? 57))%nat then Some (Z.of_nat (n - 48)) else None.

Fixpoint parse_digits (s : string) (acc : Z) (scale : nat)
  (seen_point any : bool) : option (Z * nat) :=
  match s with
  | EmptyString => if any then Some (acc, scale) else None
  | String c s' =>
      if Ascii.eqb c "." then
        if seen_point then None else parse_digits s' acc scale true any
      else
        match digit_of c with
        | Some d =>
            parse_digits s' (10 * acc + d)
              (if seen_point then S scale else scale) seen_point true
        | None => None
        end
  end.

Definition parse_decimal (s : string) : option R :=
  match parse_digits s 0 0 false false with
  | Some (m, k) => Some (IZR m / 10 ^ k)
  | None => None
  end.

(** An insertion sort on the score, larger first, to run the model: a row
    is put before the rows of equal score that follow it in the input. *)
Definition score_geb (a b : ScoredRow) : bool :=
  match Opportunity_Score a, Opportunity_Score b with
  | Some x, Some y => if Rle_dec y x then true else false
  | _, None => true
  | None, Some _ => false
  end.

Section Insertion.
Variable before : ScoredRow -> ScoredRow -> bool.

Fixpoint insert (x : ScoredRow) (l : list ScoredRow) : list ScoredRow :=
  match l with
  | [] => [x]
  | y :: l' => if before x y then x :: y :: l' else y :: insert x l'
  end.

Definition insertion_sort (l : list ScoredRow) : list ScoredRow :=
  fold_right insert [] l.
End Insertion.

Definition stable_sort : list ScoredRow -> list ScoredRow :=
  insertion_sort score_geb.

(** ** Example data *)

(** The thresholds [main] sets. *)
Definition main_analyzer : KeywordOpportunityAnalyzer :=
  {| min_search_volume := 1000; max_competition := 0.3; min_cpc := 0.5 |}.

Definition text (l : list string) : Series := ObjectSeries (map Some l).

(** A keyword export of three rows: one that passes the thresholds, one of
    low volume, one without a competition figure. *)
Definition example_table : DataFrame :=
  [("Keyword", text ["alpha"; "beta"; "gamma"]);
   ("Avg. monthly searches", text ["1,200"; "500"; "2,000"]);
   ("Competition", text ["0.1"; "0.1"; "N/A"]);
   ("Top of page bid (low range)", text ["$2.50"; "$2.50"; "$2.50"])]%string.

(** Twenty keywords. *)
Definition tied_keywords : list string :=
  ["k01"; "k02"; "k03"; "k04"; "k05"; "k06"; "k07"; "k08";
   "k09"; "k10"; "k11"; "k12"; "k13"; "k14"; "k15"; "k16";
   "k17"; "k18"; "k19"; "k20"]%string.

(** An export that lacks the competition column. *)
Definition table_without_competition : DataFrame :=
  [("Keyword", text ["alpha"]);
   ("Avg. monthly searches", text ["1,200"]);
   ("Top of page bid (low range)", text ["$2.50"])]%string.


(** A scored table without rows. *)
Definition no_opportunities : Opportunities :=
  {| opp_columns := required_columns ++ ["Opportunity Score"%string];
     opp_rows := [] |}.

(** An export without the keyword column, and one whose volumes are
    plain numbers. *)
Definition table_without_keyword : DataFrame :=
  [("Avg. monthly searches", text ["1,200"; "900"]);
   ("Competition", text ["0.1"; "0.2"]);
   ("Top of page bid (low range)", text ["$2.50"; "$1.00"])]%string.

Definition table_with_numeric_volume : DataFrame :=
  [("Keyword", text ["alpha"]);
   ("Avg. monthly searches", Float64Series [Some 1200]);
   ("Competition", text ["0.1"]);
   ("Top of page bid (low range)", text ["$2.50"])]%string.

(** The three columns [analyze_keywords] reads and overwrites. *)
Definition metric_columns : list string :=
  ["Competition"; "Avg. monthly searches"; "Top of page bid (low range)"]%string.

(** A file system with two files. *)
Definition disk (filepath : string) : Exn + DataFrame :=
  if String.eqb filepath "keywords.csv" then inr example_table
  else if String.eqb filepath "partial.csv" then inr table_without_competition
  else inl (IOError ("[Errno 2] No such file or directory: '" ++ filepath ++ "'")).

(** ** The script's entry point *)

(** A line break, as in ["\nAnalysis Summary:"]. *)
Definition newline : string := String (ascii_of_nat 10) EmptyString.

(** [str(n)] for a count. *)
Definition str_nat (n : nat) : string := NilZero.string_of_uint (Nat.to_uint n).

(** What a run of [main] leaves: the lines printed, in order, and the file
    written, if any. *)
Record Run : Type := {
  stdout : list string;
  exported : option Exported
}.

Section Main.

Variable parse_float : string -> option R.
Variable sort_values : list ScoredRow -> list ScoredRow.
Variable read_csv : string -> Exn + DataFrame.

(** [datetime.now().strftime('%Y%m%d_%H%M%S')] at the time of the export. *)
Variable timestamp : string.

(** [f"{x:.2f}"] and [str(x)] on a float that is a number. *)
Variable format_2f : R -> string.
Variable repr_float : R -> string.

Definition format_mean (x : option R) : string :=
  match x with
  | Some r => format_2f r
  | None => "nan"
  end.

Definition str_cell (k : cell) : string :=
  match k with
  | Str s => s
  | Num x => repr_float x
  | NaN => "nan"
  end.

(** The lines [main] prints for a summary. *)
Definition summary_lines (summary : Summary) : list string :=
  [(newline ++ "Analysis Summary:")%string;
   ("Total Opportunities: " ++ str_nat (total_opportunities summary))%string;
   ("Average Search Volume: " ++ format_mean (avg_search_volume summary))%string;
   ("Average Competition: " ++ format_mean (avg_competition summary))%string;
   ("Average Opportunity Score: "
      ++ format_mean (avg_opportunity_score summary))%string;
   (newline ++ "Top 5 Keywords:")%string]
  ++ map (fun keyword => ("- " ++ str_cell keyword)%string) (top_keywords summary).

(** [main]: whatever is raised on the way is caught and printed, after the
    lines already printed. *)
Definition main : Run :=
  let analyzer := main_analyzer in
  let out := ["Loading keyword data..."%string] in
  match load_keyword_data read_csv "keyword_planner_export.csv" with
  | inl e => {| stdout := out ++ [("Error: " ++ str e)%string]; exported := None |}
  | inr df =>
  let out := out ++ ["Analyzing keywords..."%string] in
  match fst (analyze_keywords parse_float sort_values analyzer df) with
  | inl e => {| stdout := out ++ [("Error: " ++ str e)%string]; exported := None |}
  | inr opportunities =>
  match generate_summary opportunities with
  | inl e => {| stdout := out ++ [("Error: " ++ str e)%string]; exported := None |}
  | inr summary =>
  let out := out ++ summary_lines summary in
  let file := export_results timestamp opportunities "keyword_opportunities.csv" in
  {| stdout := out ++ [printed file]; exported := Some file |}
  end end end.

End Main.

(** ** keyword_analyzer.py: trends in batches *)

Module keyword_analyzer.

(** [range(start, stop, step)] for a positive step. *)
Fixpoint range_from (fuel start stop step : nat) : list nat :=
  match fuel with
  | O => []
  | S fuel' =>
      if (start <? stop)%nat
      then start :: range_from fuel' (start + step) stop step
      else []
  end.

Definition range (start stop step : nat) : list nat :=
  range_from stop start stop step.

(** [l[i:j]]. *)
Definition slice {A} (l : list A) (i j : nat) : list A :=
  firstn (j - i) (skipn i l).

(** The batches the loop walks: [keywords_list[i:i+5]] for [i] in
    [range(0, len(keywords_list), 5)]. *)
Definition batches {A} (keywords_list : list A) : list (list A) :=
  map (fun i => slice keywords_list i (i + 5))
      (range 0 (List.length keywords_list) 5).

(** What the function does to the outside, in order: the requests to the
    trends service and the lines printed. *)
Inductive Event : Type :=
| Connect                                            (* [TrendReq()] *)
| BuildPayload (batch : list string) (timeframe : string)
| InterestOverTime
| RelatedQueries
| Print (line : string)
| PrintList (items : list string).

(** [d[k]] on a dictionary. *)
Fixpoint dict_getitem {V} (d : list (string * V)) (k : string) : Exn + V :=
  match d with
  | [] => inl (KeyError k)
  | (k0, v) :: d' => if String.eqb k0 k then inr v else dict_getitem d' k
  end.

Section Trends.

(** The tables of pandas, as far as the function uses them. *)
Variable Frame : Type.
Variable empty_frame : Frame.                   (* [pd.DataFrame()] *)
Variable is_empty : Frame -> bool.              (* [.empty] *)
Variable concat : Frame -> Frame -> Frame.      (* [pd.concat([a, b], axis=1)] *)

(** The trends service: what each request answers for the payload built
    last; per keyword, the rising queries or [None]. *)
Variable TrendReq : Exn + unit.
Variable build_payload : list string -> string -> Exn + unit.
Variable interest_over_time : list string -> string -> Exn + Frame.
Variable related_queries :
  list string -> string -> Exn + list (string * option (list string)).

(** The inner loop, [for kw in batch]. *)
Fixpoint for_kw (batch : list string) (timeframe : string) (todo : list string)
  : (Exn + unit) * list Event :=
  match todo with
  | [] => (inr tt, [])
  | kw :: todo' =>
      match related_queries batch timeframe with
      | inl e => (inl e, [RelatedQueries])
      | inr answer =>
          match dict_getitem answer kw with
          | inl e => (inl e, [RelatedQueries])
          | inr rising =>
              let shown :=
                match rising with
                | Some rising_queries =>
                    [Print (newline ++ "Rising queries for " ++ kw ++ ":");
                     PrintList rising_queries]
                | None => []
                end in
              let (r, events) := for_kw batch timeframe todo' in
              (r, RelatedQueries :: shown ++ events)
          end
      end
  end.

(** The outer loop, over the batches left. *)
Fixpoint for_batch (timeframe : string) (todo : list (list string))
  (results : Frame) : (Exn + Frame) * list Event :=
  match todo with
  | [] => (inr results, [])
  | batch :: todo' =>
      match build_payload batch timeframe with
      | inl e => (inl e, [BuildPayload batch timeframe])
      | inr _ =>
          match interest_over_time batch timeframe with
          | inl e => (inl e, [BuildPayload batch timeframe; InterestOverTime])
          | inr interest =>
              match for_kw batch timeframe batch with
              | (inl e, events) =>
                  (inl e, BuildPayload batch timeframe :: InterestOverTime :: events)
              | (inr _, events) =>
                  let results :=
                    if negb (is_empty interest) then concat results interest
                    else results in
                  let (r, events') := for_batch timeframe todo' results in
                  (r, BuildPayload batch timeframe :: InterestOverTime
                        :: events ++ events')
              end
          end
      end
  end.

(** [analyze_keywords(keywords_list, timeframe)]. *)
Definition analyze_keywords (keywords_list : list string) (timeframe : string)
  : (Exn + Frame) * list Event :=
  match TrendReq with
  | inl e => (inl e, [Connect])
  | inr _ =>
      let (r, events) := for_batch timeframe (batches keywords_list) empty_frame in
      (r, Connect :: events)
  end.

(** The default of the [timeframe] argument. *)
Definition default_timeframe : string := "today 12-m".

(** The service answers every request made for a batch: the payload is
    accepted, the interest table comes back, and the related queries come
    back with an entry for each keyword of the batch. *)
Definition answered (timeframe : string) (batch : list string) (interest : Frame)
  : Prop :=
  build_payload batch timeframe = inr tt /\
  interest_over_time batch timeframe = inr interest /\
  (batch <> [] ->
   exists answer,
     related_queries batch timeframe = inr answer /\
     forall kw, In kw batch -> exists rising, dict_getitem answer kw = inr rising).

End Trends.

(** The payloads among the events, in order. *)
Fixpoint payloads (events : list Event) : list (list string * string) :=
  match events with
  | [] => []
  | BuildPayload batch timeframe :: events' => (batch, timeframe) :: payloads events'
  | _ :: events' => payloads events'
  end.

(** The number of [related_queries()] requests among the events. *)
Fixpoint related_requests (events : list Event) : nat :=
  match events with
  | [] => 0
  | RelatedQueries :: events' => S (related_requests events')
  | _ :: events' => related_requests events'
  end.

(** The join of the interest tables, as the loop builds it. *)
Definition join_interest {Frame} (is_empty : Frame -> bool)
  (concat : Frame -> Frame -> Frame) (results : Frame) (tables : list Frame)
  : Frame :=
  fold_left
    (fun acc interest => if negb (is_empty interest) then concat acc interest else acc)
    tables results.

End keyword_analyzer.

(** ** dashboard.py: the sidebar's input *)

Module dashboard.

(** [str.isspace] on one character below U+0100. *)
Definition isspace (c : ascii) : bool :=
  let n := nat_of_ascii c in
  ((9 <=? n) && (n <=? 13) || (28 <=? n) && (n <=? 32)
   || (n =? 133) || (n =? 160))%nat.

(** [s.split(sep)] for a one-character separator. *)
Fixpoint split (sep : ascii) (s : string) : list string :=
  match s with
  | EmptyString => [EmptyString]
  | String c s' =>
      if Ascii.eqb c sep then EmptyString :: split sep s'
      else
        match split sep s' with
        | [] => [String c EmptyString]
        | piece :: pieces => String c piece :: pieces
        end
  end.

Fixpoint lstrip (s : string) : string :=
  match s with
  | EmptyString => EmptyString
  | String c s' => if isspace c then lstrip s' else s
  end.

Fixpoint rstrip (s : string) : string :=
  match s with
  | EmptyString => EmptyString
  | String c s' =>
      match rstrip s' with
      | EmptyString => if isspace c then EmptyString else String c EmptyString
      | kept => String c kept
      end
  end.

(** [s.strip()]. *)
Definition strip (s : string) : string := rstrip (lstrip s).

(** A string of white space only. *)
Definition blank (s : string) : bool := forallb isspace (list_ascii_of_string s).

(** [bool(s)] on a string. *)
Definition truthy (s : string) : bool :=
  match s with EmptyString => false | _ => true end.

(** [[k.strip() for k in keywords_input.split('\n') if k.strip()][:5]]. *)
Definition keywords (keywords_input : string) : list string :=
  firstn 5
    (map strip
       (filter (fun k => truthy (strip k)) (split (ascii_of_nat 10) keywords_input))).

(** The choices of the timeframe box and the dictionary that turns them
    into timeframes of the trends service. *)
Definition timeframe_options : list string :=
  ["Past 12 months"; "Past 30 days"; "Past 7 days"; "Past 24 hours"]%string.

Definition timeframe_map : list (string * string) :=
  [("Past 12 months", "today 12-m"); ("Past 30 days", "today 1-m");
   ("Past 7 days", "now 7-d"); ("Past 24 hours", "now 1-d")]%string.

(** The arguments of [build_payload] in [run], when it is called:
    [if keywords:] guards the call, and [timeframe_map[timeframe]] is
    evaluated for it. *)
Definition payload (timeframe keywords_input : string)
  : Exn + option (list string * string) :=
  match keywords keywords_input with
  | [] => inr None
  | kws =>
      match keyword_analyzer.dict_getitem timeframe_map timeframe with
      | inl e => inl e
      | inr tf => inr (Some (kws, tf))
      end
  end.

(** The text the keyword box starts with. *)
Definition default_input : string :=
  ("python programming" ++ newline ++ "learn python" ++ newline
   ++ "python tutorial")%string.

End dashboard.

(** ** More data to run the model *)

(** Thresholds tighter than those of [main]. *)
Definition strict_analyzer : KeywordOpportunityAnalyzer :=
  {| min_search_volume := 1100; max_competition := 0.2; min_cpc := 1 |}.

(** Two exports of one row: a bid with a dollar sign that is not in front,
    and a bid in pounds. *)
Definition inner_dollar : string := "2$50".

Definition pound_bid : string := String (ascii_of_nat 163) "2.50".

Definition table_with_inner_dollar : DataFrame :=
  [("Keyword", text ["alpha"]);
   ("Avg. monthly searches", text ["1,200"]);
   ("Competition", text ["0.1"]);
   ("Top of page bid (low range)", text [inner_dollar])]%string.

Definition table_with_pound_bid : DataFrame :=
  [("Keyword", text ["alpha"]);
   ("Avg. monthly searches", text ["1,200"]);
   ("Competition", text ["0.1"]);
   ("Top of page bid (low range)", text [pound_bid])]%string.

(** A trends service that always answers: the interest table of a batch
    is, for the purpose, the list of its keywords, and one keyword has a
    rising query. *)
Definition echo_interest (batch : list string) (timeframe : string)
  : Exn + list string := inr batch.

Definition echo_related (batch : list string) (timeframe : string)
  : Exn + list (string * option (list string)) :=
  inr (map (fun kw =>
              (kw, if String.eqb kw "k07" then Some ["k07 price"%string] else None))
           batch).

Definition echo_analyze (keywords_list : list string) (timeframe : string)
  : (Exn + list string) * list keyword_analyzer.Event :=
  keyword_analyzer.analyze_keywords (list string) []
    (fun t => match t with [] => true | _ => false end) (@app string)
    (inr tt) (fun _ _ => inr tt) echo_interest echo_related
    keywords_list timeframe.

(** ** Facts about the primitives *)

Section Primitives.

Lemma ln_10_pos : 0 < ln 10.
Proof. rewrite <- ln_1. apply ln_increasing; lra. Qed.

Lemma log10_1 : log10 1 = 0.
Proof. unfold log10. rewrite ln_1. lra. Qed.

Lemma log10_lt (x y : R) : 0 < x -> x < y -> log10 x < log10 y.
Proof.
  intros Hx Hxy. unfold log10.
  apply Rmult_lt_compat_r.
  - apply Rinv_0_lt_compat, ln_10_pos.
  - now apply ln_increasing.
Qed.

Lemma log10_le (x y : R) : 0 < x -> x <= y -> log10 x <= log10 y.
Proof.
  intros Hx [Hlt | ->].
  - left. now apply log10_lt.
  - right. reflexivity.
Qed.

Lemma log10_pow (x : R) (n : nat) : 0 < x -> log10 (x ^ n) = INR n * log10 x.
Proof.
  intros Hx. unfold log10. rewrite ln_pow by assumption.
  unfold Rdiv. ring.
Qed.

Lemma log10_10 : log10 10 = 1.
Proof. unfold log10. field. pose proof ln_10_pos. lra. Qed.

Lemma log10_pow10 (n : nat) : log10 (10 ^ n) = INR n.
Proof. rewrite log10_pow by lra. rewrite log10_10. ring. Qed.

(** Bounds on a logarithm from a comparison of integer powers. *)
Lemma log10_lower (a : Z) (n m : nat) :
  (10 ^ Z.of_nat m < a ^ Z.of_nat n)%Z ->
  (0 < a)%Z -> INR m < INR n * log10 (IZR a).
Proof.
  intros Hpow Ha.
  assert (H0 : 0 < IZR a) by now apply (IZR_lt 0).
  rewrite <- log10_pow by assumption.
  rewrite <- (log10_pow10 m).
  apply log10_lt.
  - apply pow_lt. lra.
  - rewrite !pow_IZR. now apply IZR_lt.
Qed.

Lemma log10_upper (a : Z) (n m : nat) :
  (a ^ Z.of_nat n < 10 ^ Z.of_nat m)%Z ->
  (0 < a)%Z -> INR n * log10 (IZR a) < INR m.
Proof.
  intros Hpow Ha.
  assert (H0 : 0 < IZR a) by now apply (IZR_lt 0).
  rewrite <- log10_pow by assumption.
  rewrite <- (log10_pow10 m).
  apply log10_lt.
  - now apply pow_lt.
  - rewrite !pow_IZR. now apply IZR_lt.
Qed.

(** [rint] stays within one half of its argument. *)
Lemma rint_bound (x : R) : IZR (rint x) - 1 / 2 <= x <= IZR (rint x) + 1 / 2.
Proof.
  unfold rint. pose proof (Zfloor_bound x) as [Hlo Hhi].
  destruct (Rlt_dec (x - IZR (Zfloor x)) (1 / 2)) as [H1 | H1].
  - lra.
  - destruct (Rlt_dec (1 / 2) (x - IZR (Zfloor x))) as [H2 | H2].
    + rewrite plus_IZR. lra.
    + destruct (Z.even (Zfloor x)); [| rewrite plus_IZR]; lra.
Qed.

(** Away from a tie the result is the one integer within one half. *)
Lemma rint_unique (x : R) (n : Z) :
  IZR n - 1 / 2 < x < IZR n + 1 / 2 -> rint x = n.
Proof.
  intros [Hlo Hhi]. pose proof (rint_bound x) as [Blo Bhi].
  assert (H1 : (rint x < n + 1)%Z).
  { apply lt_IZR. rewrite plus_IZR. lra. }
  assert (H2 : (n - 1 < rint x)%Z).
  { apply lt_IZR. rewrite minus_IZR. lra. }
  lia.
Qed.

Lemma rint_IZR (n : Z) : rint (IZR n) = n.
Proof. apply rint_unique. lra. Qed.

Lemma rint_le (x y : R) : x <= y -> (rint x <= rint y)%Z.
Proof.
  intros Hxy.
  destruct (Z_le_gt_dec (rint x) (rint y)) as [H | H]; [assumption | exfalso].
  pose proof (rint_bound x) as [Bx _]. pose proof (rint_bound y) as [_ By].
  assert (Hz : IZR (rint y) + 1 <= IZR (rint x)).
  { rewrite <- plus_IZR. apply IZR_le. lia. }
  assert (Heq : x = y) by lra.
  subst y. lia.
Qed.

Lemma round_le (x y : R) (d : nat) : x <= y -> round x d <= round y d.
Proof.
  intros Hxy. unfold round.
  assert (Hp : 0 < 10 ^ d) by (apply pow_lt; lra).
  apply Rmult_le_compat_r.
  - left. now apply Rinv_0_lt_compat.
  - apply IZR_le, rint_le. apply Rmult_le_compat_r; lra.
Qed.

Lemma round_0 (d : nat) : round 0 d = 0.
Proof.
  unfold round. rewrite Rmult_0_l. rewrite (rint_IZR 0).
  unfold Rdiv. ring.
Qed.

(** Rounding to two places, away from a tie. *)
Lemma round_2_unique (x : R) (n : Z) :
  IZR n - 1 / 2 < x * 100 < IZR n + 1 / 2 -> round x 2 = IZR n / 100.
Proof.
  intros H. unfold round.
  replace (10 ^ 2) with 100 by (simpl; ring).
  now rewrite (rint_unique (x * 100) n).
Qed.

End Primitives.

(** ** The scoring function *)

Section Scoring.

(** The code's weighted sum is the specification's formula. *)
Lemma calculate_opportunity_score_spec (v c b : R) :
  calculate_opportunity_score v c b = spec_score v c b.
Proof.
  unfold calculate_opportunity_score, spec_score.
  unfold weights.volume, weights.competition, weights.cpc.
  f_equal. lra.
Qed.

(** The value before rounding, as a multiple of one hundredth. *)
Lemma score_hundredths (v c b : R) (n : Z) :
  IZR n - 1 / 2
    < 800 * log10 (Rmax v 1) + 4000 * (1 - c) + 2000 * Rmin (b / 10) 1
    < IZR n + 1 / 2 ->
  calculate_opportunity_score v c b = IZR n / 100.
Proof.
  intros H. unfold calculate_opportunity_score.
  unfold weights.volume, weights.competition, weights.cpc.
  apply round_2_unique. lra.
Qed.

Lemma log10_1200_bounds : 197 / 64 < log10 1200 < 194 / 63.
Proof.
  assert (Hlo : (10 ^ Z.of_nat 197 < 1200 ^ Z.of_nat 64)%Z) by (vm_compute; reflexivity).
  assert (Hhi : (1200 ^ Z.of_nat 63 < 10 ^ Z.of_nat 194)%Z) by (vm_compute; reflexivity).
  assert (Hpos : (0 < 1200)%Z) by lia.
  pose proof (log10_lower 1200 64 197 Hlo Hpos) as Hl.
  pose proof (log10_upper 1200 63 194 Hhi Hpos) as Hu.
  clear Hlo Hhi.
  rewrite !INR_IZR_INZ in Hl, Hu.
  change (Z.of_nat 197) with 197%Z in Hl.
  change (Z.of_nat 64) with 64%Z in Hl.
  change (Z.of_nat 63) with 63%Z in Hu.
  change (Z.of_nat 194) with 194%Z in Hu.
  lra.
Qed.

(** The specification's worked example, on the code. *)
Lemma score_example : calculate_opportunity_score 1200 0.1 2.5 = 65.63.
Proof.
  rewrite (score_hundredths 1200 0.1 2.5 6563).
  - lra.
  - rewrite Rmax_left by lra. rewrite Rmin_left by lra.
    pose proof log10_1200_bounds. lra.
Qed.

Lemma score_million : calculate_opportunity_score 1000000 0 10 = 108.
Proof.
  rewrite (score_hundredths 1000000 0 10 10800).
  - lra.
  - rewrite Rmax_left by lra. rewrite Rmin_right by lra.
    replace 1000000 with (10 ^ 6) by (simpl; ring).
    rewrite log10_pow10. simpl INR. lra.
Qed.

Lemma score_le (v c b v' c' b' : R) :
  v <= v' -> c' <= c -> b <= b' ->
  calculate_opportunity_score v c b <= calculate_opportunity_score v' c' b'.
Proof.
  intros Hv Hc Hb. unfold calculate_opportunity_score.
  unfold weights.volume, weights.competition, weights.cpc.
  apply round_le.
  assert (Hl : log10 (Rmax v 1) <= log10 (Rmax v' 1)).
  { apply log10_le.
    - pose proof (Rmax_r v 1). lra.
    - now apply Rle_max_compat_r. }
  assert (Hm : Rmin (b / 10) 1 <= Rmin (b' / 10) 1).
  { apply Rle_min_compat_r. lra. }
  lra.
Qed.

Lemma score_nonneg (v c b : R) :
  c <= 1 -> 0 <= b -> 0 <= calculate_opportunity_score v c b.
Proof.
  intros Hc Hb. unfold calculate_opportunity_score.
  unfold weights.volume, weights.competition, weights.cpc.
  rewrite <- (round_0 2). apply round_le.
  assert (Hl : 0 <= log10 (Rmax v 1)).
  { rewrite <- log10_1. apply log10_le; [lra | apply Rmax_r]. }
  assert (Hm : 0 <= Rmin (b / 10) 1).
  { apply Rmin_glb; lra. }
  lra.
Qed.

Lemma score_flat (v c b b' : R) :
  10 <= b -> 10 <= b' ->
  calculate_opportunity_score v c b = calculate_opportunity_score v c b'.
Proof.
  intros Hb Hb'. unfold calculate_opportunity_score.
  rewrite !Rmin_right by lra. reflexivity.
Qed.

End Scoring.

(** ** Tables *)

Section Frames.

Lemma getitem_setitem_eq (df : DataFrame) (l : string) (s : Series) :
  getitem (setitem df l s) l = inr s.
Proof.
  induction df as [| [l0 s0] rest IH]; simpl.
  - now rewrite String.eqb_refl.
  - destruct (String.eqb l0 l) eqn:E; simpl; rewrite E; [reflexivity | exact IH].
Qed.

Lemma getitem_setitem_ne (df : DataFrame) (l l' : string) (s : Series) :
  l <> l' -> getitem (setitem df l s) l' = getitem df l'.
Proof.
  intros Hne. induction df as [| [l0 s0] rest IH]; simpl.
  - destruct (String.eqb l l') eqn:E; [| reflexivity].
    apply String.eqb_eq in E. contradiction.
  - destruct (String.eqb l0 l) eqn:E; simpl.
    + apply String.eqb_eq in E. subst l0.
      destruct (String.eqb l l') eqn:E'; [| reflexivity].
      apply String.eqb_eq in E'. contradiction.
    + now rewrite IH.
Qed.

Lemma columns_setitem (df : DataFrame) (l : string) (s s0 : Series) :
  getitem df l = inr s0 -> columns (setitem df l s) = columns df.
Proof.
  unfold columns. induction df as [| [l1 s1] rest IH]; simpl; [discriminate |].
  destruct (String.eqb l1 l) eqn:E; simpl; intros H.
  - reflexivity.
  - now rewrite IH.
Qed.

Lemma has_column_getitem (df : DataFrame) (l : string) :
  has_column (columns df) l = true <-> exists s, getitem df l = inr s.
Proof.
  unfold has_column, columns. induction df as [| [l1 s1] rest IH]; simpl.
  - split; [discriminate | intros [s H]; discriminate].
  - rewrite (String.eqb_sym l l1). destruct (String.eqb l1 l); simpl.
    + split; [eauto | reflexivity].
    + exact IH.
Qed.

Lemma setitem_same_columns (df : DataFrame) (l : string) (s : Series) :
  has_column (columns df) l = true -> columns (setitem df l s) = columns df.
Proof.
  intros H. apply has_column_getitem in H as [s0 H].
  eapply columns_setitem; eassumption.
Qed.

(** Rows carry their position as label, and the cells found there. *)
Lemma iterrows_In (i : nat) (kw : list cell) (vol comp bid : list (option R)) (x : Row) :
  In x (iterrows i kw vol comp bid) ->
  (i <= label x)%nat /\
  nth_error kw (label x - i) = Some (Keyword x) /\
  nth_error vol (label x - i) = Some (Avg_monthly_searches x) /\
  nth_error comp (label x - i) = Some (Competition x) /\
  nth_error bid (label x - i) = Some (Top_of_page_bid x).
Proof.
  revert i vol comp bid.
  induction kw as [| k kw IH]; intros i vol comp bid; simpl; [contradiction |].
  destruct vol as [| v vol]; [contradiction |].
  destruct comp as [| c comp]; [contradiction |].
  destruct bid as [| b bid]; [contradiction |].
  simpl. intros [<- | Hin].
  - simpl. rewrite Nat.sub_diag. simpl. auto.
  - apply IH in Hin as (Hle & Hk & Hv & Hc & Hb).
    replace (label x - i)%nat with (S (label x - S i)) by lia.
    simpl. split; [lia | auto].
Qed.

Lemma iterrows_nth (i n : nat) (kw : list cell) (vol comp bid : list (option R))
  (k : cell) (v c b : option R) :
  nth_error kw n = Some k -> nth_error vol n = Some v ->
  nth_error comp n = Some c -> nth_error bid n = Some b ->
  In {| label := i + n; Keyword := k; Avg_monthly_searches := v;
        Competition := c; Top_of_page_bid := b |}
     (iterrows i kw vol comp bid).
Proof.
  revert i kw vol comp bid.
  induction n as [| n IH]; intros i kw vol comp bid Hk Hv Hc Hb;
    destruct kw as [| k0 kw]; try discriminate;
    destruct vol as [| v0 vol]; try discriminate;
    destruct comp as [| c0 comp]; try discriminate;
    destruct bid as [| b0 bid]; try discriminate; simpl in *.
  - injection Hk as ->. injection Hv as ->. injection Hc as ->. injection Hb as ->.
    left. now rewrite Nat.add_0_r.
  - right. replace (i + S n)%nat with (S i + n)%nat by lia.
    now apply IH.
Qed.

End Frames.

(** ** The analysis *)

Section Analysis.

Variable parse_float : string -> option R.
Variable sort_values : list ScoredRow -> list ScoredRow.

(** On a table it can work on, the analysis returns: the ranked, scored
    rows that pass the filter, and the table normalized in place. *)
Lemma analyze_keywords_returns (self : KeywordOpportunityAnalyzer) (df : DataFrame) :
  analyzable df ->
  analyze_keywords parse_float sort_values self df =
    (inr {| opp_columns := columns df ++ ["Opportunity Score"%string];
            opp_rows :=
              sort_values
                (map add_score (filter (mask self) (normalized_rows parse_float df))) |},
     normalized parse_float df).
Proof.
  intros ((c & Hc) & (v & Hv) & (b & Hb)).
  unfold analyze_keywords, normalized_rows, normalized, bind, df_get, df_set,
    df_read, lift, ret.
  rewrite Hc, Hv, Hb. cbn beta iota.
  rewrite getitem_setitem_ne, Hv by discriminate. cbn beta iota.
  unfold str_replace at 1. cbn beta iota.
  rewrite getitem_setitem_ne by discriminate.
  rewrite getitem_setitem_ne, Hb by discriminate. cbn beta iota.
  unfold str_replace at 1. cbn beta iota.
  f_equal. f_equal. f_equal.
  - rewrite (columns_setitem _ _ _ (ObjectSeries b)).
    + rewrite (columns_setitem _ _ _ (ObjectSeries v)).
      * now rewrite (columns_setitem _ _ _ c).
      * now rewrite getitem_setitem_ne by discriminate.
    + now rewrite !getitem_setitem_ne by discriminate.
  - unfold keyword_cells.
    now rewrite !getitem_setitem_ne by discriminate.
Qed.

(** It returns on no other table: a missing column raises [KeyError], a
    numeric volume or bid column [AttributeError]. *)
Lemma analyze_keywords_returns_iff (self : KeywordOpportunityAnalyzer) (df : DataFrame) :
  (exists out df', analyze_keywords parse_float sort_values self df = (inr out, df'))
  <-> analyzable df.
Proof.
  split.
  - intros (out & df' & Hrun). revert Hrun.
    unfold analyze_keywords, bind, df_get, df_set, df_read, lift, ret.
    destruct (getitem df "Competition") as [e | c] eqn:Hc; [discriminate |].
    cbn beta iota. rewrite getitem_setitem_ne by discriminate.
    destruct (getitem df "Avg. monthly searches") as [e | [v | v]] eqn:Hv;
      [discriminate | | discriminate].
    cbn beta iota. unfold str_replace at 1. cbn beta iota.
    rewrite !getitem_setitem_ne by discriminate.
    destruct (getitem df "Top of page bid (low range)") as [e | [b | b]] eqn:Hb;
      [discriminate | | discriminate].
    intros _. split; [eauto |]. split; eexists; eassumption.
  - intros Hdf. eexists. eexists. now apply analyze_keywords_returns.
Qed.

End Analysis.

(** ** Order of scores, and the insertion sort *)

Section ScoreOrder.

Lemma score_desc_trans (a b c : ScoredRow) :
  score_desc a b -> score_desc b c -> score_desc a c.
Proof.
  unfold score_desc.
  destruct (Opportunity_Score a), (Opportunity_Score b), (Opportunity_Score c);
    intros; try tauto; lra.
Qed.

Lemma score_geb_true (a b : ScoredRow) : score_geb a b = true -> score_desc a b.
Proof.
  unfold score_geb, score_desc.
  destruct (Opportunity_Score a), (Opportunity_Score b); try easy.
  destruct (Rle_dec r0 r); easy.
Qed.

Lemma score_geb_false (a b : ScoredRow) : score_geb a b = false -> score_desc b a.
Proof.
  unfold score_geb, score_desc.
  destruct (Opportunity_Score a), (Opportunity_Score b); try easy.
  destruct (Rle_dec r0 r); [easy | intros _; lra].
Qed.

End ScoreOrder.

Section InsertionSort.

Variable before : ScoredRow -> ScoredRow -> bool.
Hypothesis before_true : forall x y, before x y = true -> score_desc x y.
Hypothesis before_false : forall x y, before x y = false -> score_desc y x.

Lemma insert_perm (x : ScoredRow) (l : list ScoredRow) :
  Permutation (x :: l) (insert before x l).
Proof.
  induction l as [| y l IH]; simpl.
  - apply Permutation_refl.
  - destruct (before x y).
    + apply Permutation_refl.
    + eapply perm_trans; [apply perm_swap |]. now apply perm_skip.
Qed.

Lemma insertion_sort_perm (l : list ScoredRow) :
  Permutation l (insertion_sort before l).
Proof.
  induction l as [| x l IH]; simpl.
  - apply perm_nil.
  - eapply perm_trans; [apply perm_skip, IH | apply insert_perm].
Qed.

Lemma insert_hd (x y : ScoredRow) (l : list ScoredRow) :
  score_desc y x -> HdRel score_desc y l -> HdRel score_desc y (insert before x l).
Proof.
  intros Hyx Hhd. destruct l as [| z l]; simpl.
  - now constructor.
  - destruct (before x z); constructor; [assumption |].
    now inversion Hhd.
Qed.

Lemma insert_sorted (x : ScoredRow) (l : list ScoredRow) :
  Sorted score_desc l -> Sorted score_desc (insert before x l).
Proof.
  induction l as [| y l IH]; simpl; intros Hs.
  - repeat constructor.
  - destruct (before x y) eqn:E.
    + constructor; [assumption |]. constructor. now apply before_true.
    + inversion Hs as [| ? ? Hs' Hhd]; subst.
      constructor; [now apply IH |].
      apply insert_hd; [now apply before_false | assumption].
Qed.

Lemma insertion_sort_sorted (l : list ScoredRow) :
  Sorted score_desc (insertion_sort before l).
Proof.
  induction l as [| x l IH]; simpl.
  - constructor.
  - now apply insert_sorted.
Qed.

End InsertionSort.

Section SortInstances.

Lemma stable_sort_perm (l : list ScoredRow) : Permutation l (stable_sort l).
Proof. apply insertion_sort_perm. Qed.

Lemma stable_sort_sorted (l : list ScoredRow) : Sorted score_desc (stable_sort l).
Proof. apply insertion_sort_sorted; [apply score_geb_true | apply score_geb_false]. Qed.

End SortInstances.

(** ** The filter *)

Section Filter.

Lemma cell_ge_true (x : option R) (t : R) :
  cell_ge x t = true <-> exists v, x = Some v /\ t <= v.
Proof.
  unfold cell_ge. destruct x as [v |].
  - destruct (Rle_dec t v); split.
    + eauto.
    + reflexivity.
    + discriminate.
    + intros (v' & [= <-] & H). contradiction.
  - split; [discriminate | intros (v & H & _); discriminate].
Qed.

Lemma cell_le_true (x : option R) (t : R) :
  cell_le x t = true <-> exists v, x = Some v /\ v <= t.
Proof.
  unfold cell_le. destruct x as [v |].
  - destruct (Rle_dec v t); split.
    + eauto.
    + reflexivity.
    + discriminate.
    + intros (v' & [= <-] & H). contradiction.
  - split; [discriminate | intros (v & H & _); discriminate].
Qed.

(** A row passes the filter exactly when its three cells are numbers
    within the thresholds. *)
Lemma mask_true (self : KeywordOpportunityAnalyzer) (x : Row) :
  mask self x = true <->
  exists v c b,
    Avg_monthly_searches x = Some v /\ Competition x = Some c /\
    Top_of_page_bid x = Some b /\
    min_search_volume self <= v /\ c <= max_competition self /\ min_cpc self <= b.
Proof.
  unfold mask. rewrite !andb_true_iff, !cell_ge_true, cell_le_true. split.
  - intros [[(v & Hv & Hv') (c & Hc & Hc')] (b & Hb & Hb')].
    exists v, c, b. repeat split; assumption.
  - intros (v & c & b & Hv & Hc & Hb & Hv' & Hc' & Hb').
    repeat split; eexists; split; eassumption.
Qed.


End Filter.

(** ** What the analysis returns *)

Section Ranking.

Variable parse_float : string -> option R.
Variable sort_values : list ScoredRow -> list ScoredRow.

(** What pandas promises of [sort_values] whatever the [kind]: the rows
    are kept. *)
Hypothesis sort_values_perm : forall l, Permutation l (sort_values l).

(** The rows of the result are the scored rows that pass the filter. *)
Lemma opp_rows_In (self : KeywordOpportunityAnalyzer) (df df' : DataFrame)
  (out : Opportunities) (y : ScoredRow) :
  analyzable df ->
  analyze_keywords parse_float sort_values self df = (inr out, df') ->
  In y (opp_rows out) <->
  exists x, In x (normalized_rows parse_float df) /\ mask self x = true /\ y = add_score x.
Proof.
  intros Hdf Hrun. rewrite analyze_keywords_returns in Hrun by assumption.
  injection Hrun as <- _. simpl. split.
  - intros Hin. apply (Permutation_in _ (Permutation_sym (sort_values_perm _))) in Hin.
    apply in_map_iff in Hin as (x & <- & Hx).
    apply filter_In in Hx as [Hx Hm]. eauto.
  - intros (x & Hx & Hm & ->).
    apply (Permutation_in _ (sort_values_perm _)).
    apply in_map. now apply filter_In.
Qed.

(** C1 (as amended). Every row of the result has its three cells present,
    and its score is the rounded formula of the specification on them; on
    the worked example (1200, 0.1, 2.5) that score is 65.63. *)
Theorem retained_score_formula (self : KeywordOpportunityAnalyzer) (df : DataFrame) :
  analyzable df ->
  exists out df',
    analyze_keywords parse_float sort_values self df = (inr out, df') /\
    (forall y, In y (opp_rows out) ->
       exists v c b,
         Avg_monthly_searches (row y) = Some v /\ Competition (row y) = Some c /\
         Top_of_page_bid (row y) = Some b /\
         Opportunity_Score y = Some (spec_score v c b)) /\
    calculate_opportunity_score 1200 0.1 2.5 = 65.63.
Proof.
  intros Hdf.
  pose proof (analyze_keywords_returns parse_float sort_values self df Hdf) as Hrun.
  eexists. eexists. split; [exact Hrun |]. split; [| exact score_example].
  intros y Hy.
  apply (opp_rows_In self df _ _ y Hdf Hrun) in Hy as (x & _ & Hm & ->).
  apply mask_true in Hm as (v & c & b & Hv & Hc & Hb & _).
  exists v, c, b. simpl. rewrite Hv, Hc, Hb. simpl.
  now rewrite calculate_opportunity_score_spec.
Qed.

End Ranking.

(** ** Normalization, and what is retained *)

Section Normalization.

Variable parse_float : string -> option R.
Variable sort_values : list ScoredRow -> list ScoredRow.
Hypothesis sort_values_perm : forall l, Permutation l (sort_values l).

(** Replacing a character by nothing keeps the other characters, in order. *)
Lemma replace_char_empty (pat : ascii) (t : string) :
  list_ascii_of_string (replace_char pat "" t) =
  filter (fun c => negb (Ascii.eqb c pat)) (list_ascii_of_string t).
Proof.
  induction t as [| c t IH]; simpl; [reflexivity |].
  destruct (Ascii.eqb c pat); simpl; now rewrite IH.
Qed.

Lemma replace_char_without (pat : ascii) (t : string) :
  replace_char pat "" t = without pat t.
Proof.
  unfold without. rewrite <- replace_char_empty.
  symmetry. apply string_of_list_ascii_of_string.
Qed.

(** [str.replace] then [pd.to_numeric], on a text column. *)
Lemma to_numeric_stripped (pat : ascii) (vs : list (option string)) :
  to_numeric parse_float (ObjectSeries (map (option_map (replace_char pat "")) vs))
  = map (stripped_number parse_float pat) vs.
Proof.
  simpl. rewrite map_map. apply map_ext.
  intros [t |]; simpl; [now rewrite replace_char_without | reflexivity].
Qed.

(** [pd.to_numeric] on a column of either kind. *)
Lemma to_numeric_cells (c : Series) :
  to_numeric parse_float c = map (cell_number parse_float) (tolist c).
Proof.
  destruct c as [cs | xs]; simpl; rewrite map_map.
  - apply map_ext. now intros [t |].
  - rewrite <- (map_id xs) at 1. apply map_ext. now intros [x |].
Qed.

(** The rows the filter sees, and the table the analysis leaves, from the
    cells of the table as read. *)
Lemma normalized_rows_eq (df : DataFrame) (c : Series)
  (vs bs : list (option string)) :
  getitem df "Competition" = inr c ->
  getitem df "Avg. monthly searches" = inr (ObjectSeries vs) ->
  getitem df "Top of page bid (low range)" = inr (ObjectSeries bs) ->
  normalized_rows parse_float df =
    iterrows 0 (keyword_cells df (List.length vs))
      (map (stripped_number parse_float ",") vs)
      (map (cell_number parse_float) (tolist c))
      (map (stripped_number parse_float "$") bs).
Proof.
  intros Hc Hv Hb. unfold normalized_rows. rewrite Hc, Hv, Hb. cbv zeta.
  now rewrite !to_numeric_stripped, to_numeric_cells, length_map.
Qed.

Lemma normalized_eq (df : DataFrame) (c : Series)
  (vs bs : list (option string)) :
  getitem df "Competition" = inr c ->
  getitem df "Avg. monthly searches" = inr (ObjectSeries vs) ->
  getitem df "Top of page bid (low range)" = inr (ObjectSeries bs) ->
  normalized parse_float df =
    setitem
      (setitem
         (setitem df "Competition"
            (Float64Series (map (cell_number parse_float) (tolist c))))
         "Avg. monthly searches"
         (Float64Series (map (stripped_number parse_float ",") vs)))
      "Top of page bid (low range)"
      (Float64Series (map (stripped_number parse_float "$") bs)).
Proof.
  intros Hc Hv Hb. unfold normalized. rewrite Hc, Hv, Hb. cbv zeta.
  now rewrite !to_numeric_stripped, to_numeric_cells.
Qed.

(** The keyword cells the rows are built from. *)
Lemma keyword_at_cells (df : DataFrame) (n i : nat) (k : cell) :
  (i < n)%nat ->
  keyword_at df i k <-> nth_error (keyword_cells df n) i = Some k.
Proof.
  intros Hi. unfold keyword_at, keyword_cells.
  destruct (getitem df "Keyword") as [e | s]; [| reflexivity].
  split.
  - intros ->. now apply nth_error_repeat.
  - intros H. apply nth_error_In in H. now apply repeat_spec in H.
Qed.

(** A row of the normalized table is a position of the table as read, with
    the numbers its cells stand for. *)
Lemma normalized_rows_raw (df : DataFrame) (c : Series)
  (vs bs : list (option string)) (x : Row) :
  getitem df "Competition" = inr c ->
  getitem df "Avg. monthly searches" = inr (ObjectSeries vs) ->
  getitem df "Top of page bid (low range)" = inr (ObjectSeries bs) ->
  In x (normalized_rows parse_float df) <->
  exists rv rc rb,
    nth_error (keyword_cells df (List.length vs)) (label x) = Some (Keyword x) /\
    nth_error vs (label x) = Some rv /\
    nth_error (tolist c) (label x) = Some rc /\
    nth_error bs (label x) = Some rb /\
    Avg_monthly_searches x = stripped_number parse_float "," rv /\
    Competition x = cell_number parse_float rc /\
    Top_of_page_bid x = stripped_number parse_float "$" rb.
Proof.
  intros Hc Hv Hb. rewrite (normalized_rows_eq df c vs bs Hc Hv Hb). split.
  - intros Hx. apply iterrows_In in Hx as (_ & Hk & Hvol & Hcomp & Hbid).
    rewrite Nat.sub_0_r in Hk, Hvol, Hcomp, Hbid.
    rewrite nth_error_map in Hvol, Hcomp, Hbid.
    destruct (nth_error vs (label x)) as [rv |]; [| discriminate].
    destruct (nth_error (tolist c) (label x)) as [rc |]; [| discriminate].
    destruct (nth_error bs (label x)) as [rb |]; [| discriminate].
    simpl in Hvol, Hcomp, Hbid.
    exists rv, rc, rb. repeat split; congruence.
  - intros (rv & rc & rb & Hk & Hrv & Hrc & Hrb & Hvol & Hcomp & Hbid).
    destruct x as [i k v cc b]. simpl in *. subst v cc b.
    apply (iterrows_nth 0 i); [exact Hk | | |];
      rewrite nth_error_map; rewrite ?Hrv, ?Hrc, ?Hrb; reflexivity.
Qed.

(** The rows of the result, from the cells of the table as read: the
    positions whose three cells stand for numbers within the thresholds,
    each with these numbers and their score. *)
Lemma opp_rows_raw (self : KeywordOpportunityAnalyzer) (df df' : DataFrame)
  (c : Series) (vs bs : list (option string)) (out : Opportunities)
  (y : ScoredRow) :
  getitem df "Competition" = inr c ->
  getitem df "Avg. monthly searches" = inr (ObjectSeries vs) ->
  getitem df "Top of page bid (low range)" = inr (ObjectSeries bs) ->
  analyze_keywords parse_float sort_values self df = (inr out, df') ->
  In y (opp_rows out) <->
  exists rv rc rb v cc b,
    keyword_at df (label (row y)) (Keyword (row y)) /\
    nth_error vs (label (row y)) = Some rv /\
    nth_error (tolist c) (label (row y)) = Some rc /\
    nth_error bs (label (row y)) = Some rb /\
    stripped_number parse_float "," rv = Some v /\
    cell_number parse_float rc = Some cc /\
    stripped_number parse_float "$" rb = Some b /\
    min_search_volume self <= v /\ cc <= max_competition self /\
    min_cpc self <= b /\
    Avg_monthly_searches (row y) = Some v /\
    Competition (row y) = Some cc /\
    Top_of_page_bid (row y) = Some b /\
    Opportunity_Score y = Some (calculate_opportunity_score v cc b).
Proof.
  intros Hc Hv Hb Hrun.
  assert (Hdf : analyzable df).
  { split; [eauto |]. split; eexists; eassumption. }
  rewrite (opp_rows_In parse_float sort_values sort_values_perm self df df' out y
             Hdf Hrun).
  split.
  - intros (x & Hx & Hm & ->).
    apply (normalized_rows_raw df c vs bs x Hc Hv Hb) in Hx
      as (rv & rc & rb & Hk & Hrv & Hrc & Hrb & Hvol & Hcomp & Hbid).
    apply mask_true in Hm as (v & cc & b & Hv' & Hc' & Hb' & H1 & H2 & H3).
    apply (keyword_at_cells df (List.length vs)) in Hk;
      [| apply nth_error_Some; congruence].
    exists rv, rc, rb, v, cc, b. cbn [add_score row Opportunity_Score].
    rewrite Hv', Hc', Hb'. cbn [score_cells].
    repeat split; try assumption; congruence.
  - intros (rv & rc & rb & v & cc & b & Hk & Hrv & Hrc & Hrb & Ev & Ec & Eb
            & H1 & H2 & H3 & Hv' & Hc' & Hb' & Hs).
    apply (keyword_at_cells df (List.length vs)) in Hk;
      [| apply nth_error_Some; congruence].
    exists (row y). split; [| split].
    + apply (normalized_rows_raw df c vs bs (row y) Hc Hv Hb).
      exists rv, rc, rb. repeat split; congruence.
    + apply mask_true. exists v, cc, b. repeat split; assumption.
    + destruct y as [x s]. unfold add_score. simpl in *.
      rewrite Hv', Hc', Hb'. simpl. congruence.
Qed.


(** C3 (as amended). On a table that has the competition column and whose
    volume and bid columns hold text, whatever the cells contain, the
    analysis returns (nothing is raised). It leaves in the table, for every
    row, the volume read from the text without its commas, the bid read from
    the text without its dollar signs, wherever they stand, and the
    competition read from its cell; a cell that does not read as a number
    is left missing. The rows of the result carry these numbers; a row whose
    three numbers are present and within the thresholds is in the result
    with them and their score, and a row with a missing number is in no
    result. *)
Theorem normalization_coerces (self : KeywordOpportunityAnalyzer) (df : DataFrame)
  (c : Series) (vs bs : list (option string)) :
  getitem df "Competition" = inr c ->
  getitem df "Avg. monthly searches" = inr (ObjectSeries vs) ->
  getitem df "Top of page bid (low range)" = inr (ObjectSeries bs) ->
  exists out df',
    analyze_keywords parse_float sort_values self df = (inr out, df') /\
    getitem df' "Avg. monthly searches"
      = inr (Float64Series (map (stripped_number parse_float ",") vs)) /\
    getitem df' "Competition"
      = inr (Float64Series (map (cell_number parse_float) (tolist c))) /\
    getitem df' "Top of page bid (low range)"
      = inr (Float64Series (map (stripped_number parse_float "$") bs)) /\
    (forall y, In y (opp_rows out) ->
       exists rv rc rb,
         nth_error vs (label (row y)) = Some rv /\
         nth_error (tolist c) (label (row y)) = Some rc /\
         nth_error bs (label (row y)) = Some rb /\
         Avg_monthly_searches (row y) = stripped_number parse_float "," rv /\
         Competition (row y) = cell_number parse_float rc /\
         Top_of_page_bid (row y) = stripped_number parse_float "$" rb) /\
    (forall i k rv rc rb v cc b,
       keyword_at df i k ->
       nth_error vs i = Some rv ->
       nth_error (tolist c) i = Some rc ->
       nth_error bs i = Some rb ->
       stripped_number parse_float "," rv = Some v ->
       cell_number parse_float rc = Some cc ->
       stripped_number parse_float "$" rb = Some b ->
       min_search_volume self <= v -> cc <= max_competition self ->
       min_cpc self <= b ->
       In {| row := {| label := i; Keyword := k;
                       Avg_monthly_searches := Some v;
                       Competition := Some cc;
                       Top_of_page_bid := Some b |};
             Opportunity_Score := Some (calculate_opportunity_score v cc b) |}
          (opp_rows out)) /\
    (forall i rv rc rb,
       nth_error vs i = Some rv ->
       nth_error (tolist c) i = Some rc ->
       nth_error bs i = Some rb ->
       stripped_number parse_float "," rv = None \/
       cell_number parse_float rc = None \/
       stripped_number parse_float "$" rb = None ->
       forall y, In y (opp_rows out) -> label (row y) <> i).
Proof.
  intros Hc Hv Hb.
  assert (Hdf : analyzable df).
  { split; [eauto |]. split; eexists; eassumption. }
  pose proof (analyze_keywords_returns parse_float sort_values self df Hdf) as Hrun.
  eexists. eexists. split; [exact Hrun |].
  assert (Hin := fun y => opp_rows_raw self df _ c vs bs _ y Hc Hv Hb Hrun).
  rewrite (normalized_eq df c vs bs Hc Hv Hb).
  split; [| split; [| split; [| split; [| split]]]].
  - rewrite getitem_setitem_ne by discriminate. apply getitem_setitem_eq.
  - rewrite !getitem_setitem_ne by discriminate. apply getitem_setitem_eq.
  - apply getitem_setitem_eq.
  - intros y Hy.
    apply Hin in Hy as (rv & rc & rb & v & cc & b & _ & Hrv & Hrc & Hrb
                        & Ev & Ec & Eb & _ & _ & _ & Hv' & Hc' & Hb' & _).
    exists rv, rc, rb. repeat split; congruence.
  - intros i k rv rc rb v cc b Hk Hrv Hrc Hrb Ev Ec Eb H1 H2 H3.
    apply Hin. exists rv, rc, rb, v, cc, b.
    cbn [row label Keyword Avg_monthly_searches Competition Top_of_page_bid
         Opportunity_Score].
    repeat split; assumption.
  - intros i rv rc rb Hrv Hrc Hrb Hmiss y Hy Hl. subst i.
    apply Hin in Hy as (rv' & rc' & rb' & v & cc & b & _ & Hrv' & Hrc' & Hrb'
                        & Ev & Ec & Eb & _).
    destruct Hmiss as [H | [H | H]]; congruence.
Qed.

End Normalization.

(** ** The effect of the analysis on its table *)

Section Effect.

Variable parse_float : string -> option R.
Variable sort_values : list ScoredRow -> list ScoredRow.


(** On a table whose volume column is numeric the [.str] accessor raises,
    after the competition column has been assigned. *)
Lemma analyze_keywords_numeric_volume (self : KeywordOpportunityAnalyzer)
  (df : DataFrame) (c : Series) (v : list (option R)) :
  getitem df "Competition" = inr c ->
  getitem df "Avg. monthly searches" = inr (Float64Series v) ->
  analyze_keywords parse_float sort_values self df =
    (inl (AttributeError "Can only use .str accessor with string values!"),
     setitem df "Competition" (Float64Series (to_numeric parse_float c))).
Proof.
  intros Hc Hv.
  unfold analyze_keywords, bind, df_get, df_set, df_read, lift, ret.
  rewrite Hc. cbn beta iota.
  rewrite getitem_setitem_ne, Hv by discriminate. reflexivity.
Qed.







End Effect.

(** ** Loading *)

Section Loading.

Variable read_csv : string -> Exn + DataFrame.

Lemma required_columns_present (df : DataFrame) :
  forallb (has_column (columns df)) required_columns = true <->
  (forall col, In col required_columns -> In col (columns df)).
Proof.
  rewrite forallb_forall. split; intros H col Hcol.
  - specialize (H col Hcol). unfold has_column in H.
    apply existsb_exists in H as (l & Hl & E).
    apply String.eqb_eq in E. now subst.
  - unfold has_column. apply existsb_exists.
    exists col. split; [now apply H | apply String.eqb_refl].
Qed.

(** Whatever goes wrong while loading comes out as a plain [Exception]. *)
Lemma load_keyword_data_generic (filepath : string) (e : Exn) :
  load_keyword_data read_csv filepath = inl e -> generic e = true.
Proof.
  unfold load_keyword_data.
  destruct (read_csv filepath) as [e0 | df].
  - now intros [= <-].
  - destruct (negb _); [now intros [= <-] | discriminate].
Qed.

Lemma load_keyword_data_unreadable (filepath : string) (e : Exn) :
  read_csv filepath = inl e ->
  load_keyword_data read_csv filepath
    = inl (Exception ("Error loading keyword data: " ++ str e)).
Proof. intros H. unfold load_keyword_data. now rewrite H. Qed.

(** A file that reads as a table: the check of the columns decides. *)
Lemma load_keyword_data_readable (filepath : string) (df : DataFrame) :
  read_csv filepath = inr df ->
  load_keyword_data read_csv filepath =
    if forallb (has_column (columns df)) required_columns then inr df
    else inl (Exception
                "Error loading keyword data: CSV must contain columns: Keyword, Avg. monthly searches, Competition, Top of page bid (low range)").
Proof.
  intros H. unfold load_keyword_data. rewrite H.
  destruct (forallb _ _); reflexivity.
Qed.

Lemma required_columns_absent (df : DataFrame) :
  forallb (has_column (columns df)) required_columns = false <->
  exists col, In col required_columns /\ ~ In col (columns df).
Proof.
  split.
  - intros E.
    assert (Hex : exists col, In col required_columns /\
                    has_column (columns df) col = false).
    { unfold required_columns in *. simpl in E.
      repeat match type of E with
             | context [has_column ?cs ?l] =>
                 destruct (has_column cs l) eqn:?; simpl in E
             end;
        try discriminate;
        eexists; (split; [| eassumption]); simpl; tauto. }
    destruct Hex as (col & Hcol & Hno). exists col. split; [assumption |].
    intros Hin.
    assert (Hyes : has_column (columns df) col = true).
    { unfold has_column. apply existsb_exists.
      exists col. split; [assumption | apply String.eqb_refl]. }
    congruence.
  - intros (col & Hcol & Hno).
    destruct (forallb (has_column (columns df)) required_columns) eqn:E;
      [| reflexivity].
    exfalso. apply Hno. now apply (proj1 (required_columns_present df) E).
Qed.

(** C5 (as amended). For a file that reads as a table, loading raises
    exactly when a required column is absent, and then returns no table;
    otherwise it returns the table as read. The error raised is a plain
    [Exception] whose message names the required columns, of the same class
    as the one raised for a file that cannot be read. The cells of the table
    play no part. *)
Theorem load_keyword_data_columns (filepath : string) (df : DataFrame) :
  read_csv filepath = inr df ->
  (load_keyword_data read_csv filepath = inr df <->
   forall col, In col required_columns -> In col (columns df)) /\
  ((exists col, In col required_columns /\ ~ In col (columns df)) <->
   load_keyword_data read_csv filepath =
     inl (Exception
            "Error loading keyword data: CSV must contain columns: Keyword, Avg. monthly searches, Competition, Top of page bid (low range)")) /\
  (forall e, load_keyword_data read_csv filepath = inl e -> generic e = true) /\
  (forall df', load_keyword_data read_csv filepath = inr df' -> df' = df) /\
  (forall unreadable e,
     read_csv unreadable = inl e ->
     load_keyword_data read_csv unreadable
       = inl (Exception ("Error loading keyword data: " ++ str e))).
Proof.
  intros Hread. rewrite (load_keyword_data_readable filepath df Hread).
  rewrite <- required_columns_present, <- required_columns_absent.
  destruct (forallb (has_column (columns df)) required_columns).
  - split; [tauto |]. split; [split; discriminate |].
    split; [discriminate |]. split; [now intros df' [= <-] |].
    apply load_keyword_data_unreadable.
  - split; [split; discriminate |]. split; [tauto |].
    split; [now intros e [= <-] |]. split; [discriminate |].
    apply load_keyword_data_unreadable.
Qed.

End Loading.

(** ** Summary *)

Section Summaries.

Lemma dropna_present (xs : list R) : dropna (map Some xs) = xs.
Proof. induction xs as [| x xs IH]; simpl; [reflexivity | now rewrite IH]. Qed.

Lemma mean_present (xs : list R) :
  xs <> [] -> mean (map Some xs) = Some (sum xs / INR (List.length xs)).
Proof.
  intros Hne. unfold mean. rewrite dropna_present.
  destruct xs; [contradiction | reflexivity].
Qed.

Lemma firstn_incl {A} (n : nat) (l : list A) (a : A) : In a (firstn n l) -> In a l.
Proof.
  revert l. induction n as [| n IH]; intros [| x l]; simpl; try contradiction.
  intros [-> | H]; [now left | right; now apply IH].
Qed.

Lemma skipn_incl {A} (n : nat) (l : list A) (a : A) : In a (skipn n l) -> In a l.
Proof.
  revert l. induction n as [| n IH]; intros [| x l]; simpl; try contradiction.
  - tauto.
  - intros H. right. now apply IH.
Qed.

(** In a ranked table the first [n] rows are ranked, and none of the rows
    after them outranks one of them. *)
Lemma head_ranked (n : nat) (l : list ScoredRow) :
  StronglySorted score_desc l ->
  StronglySorted score_desc (firstn n l) /\
  (forall a b, In a (firstn n l) -> In b (skipn n l) -> score_desc a b).
Proof.
  revert l. induction n as [| n IH]; intros l Hs.
  - simpl. split; [constructor | contradiction].
  - destruct l as [| x l]; simpl.
    + split; [constructor | contradiction].
    + inversion Hs as [| ? ? Hs' Hall]; subst.
      destruct (IH l Hs') as [IH1 IH2].
      rewrite Forall_forall in Hall. split.
      * constructor; [assumption |].
        apply Forall_forall. intros a Ha. apply Hall. now apply firstn_incl in Ha.
      * intros a b [<- | Ha] Hb.
        -- apply Hall. now apply skipn_incl in Hb.
        -- now apply IH2.
Qed.

Lemma opp_getitem_present {A} (opp : Opportunities) (l : string) (f : ScoredRow -> A) :
  In l (opp_columns opp) -> opp_getitem opp l f = inr (map f (opp_rows opp)).
Proof.
  intros H. unfold opp_getitem.
  replace (has_column (opp_columns opp) l) with true; [reflexivity |].
  symmetry. unfold has_column. apply existsb_exists.
  exists l. split; [assumption | apply String.eqb_refl].
Qed.

(** The table the analysis returns has the columns the summary reads, when
    the table analysed has a keyword column. *)
Lemma analysis_columns (parse_float : string -> option R)
  (sort_values : list ScoredRow -> list ScoredRow)
  (self : KeywordOpportunityAnalyzer) (df df' : DataFrame) (out : Opportunities) :
  In "Keyword"%string (columns df) ->
  analyze_keywords parse_float sort_values self df = (inr out, df') ->
  In "Avg. monthly searches"%string (opp_columns out) /\
  In "Competition"%string (opp_columns out) /\
  In "Opportunity Score"%string (opp_columns out) /\
  In "Keyword"%string (opp_columns out).
Proof.
  intros Hk Hrun.
  assert (Hdf : analyzable df).
  { apply (analyze_keywords_returns_iff parse_float sort_values self). eauto. }
  rewrite analyze_keywords_returns in Hrun by assumption.
  injection Hrun as <- _. cbn [opp_columns].
  assert (Hcol : forall l s, getitem df l = inr s -> In l (columns df)).
  { intros l s H.
    assert (Hh : has_column (columns df) l = true)
      by (apply has_column_getitem; eauto).
    unfold has_column in Hh. apply existsb_exists in Hh as (l' & Hl' & E).
    apply String.eqb_eq in E. now subst. }
  destruct Hdf as ((c & Hc) & (v & Hv) & _).
  repeat split; apply in_or_app;
    [left; eapply Hcol; eassumption | left; eapply Hcol; eassumption
    | right; now left | now left].
Qed.

(** C6. On a scored table (one that has the four columns the summary
    reads) the summary returns, without raising. Its count is the number of
    rows, and its top keywords are the keywords of the first five rows, in
    order: at most five, and on a ranked table the rows of highest score,
    highest first. On the empty table the count is zero, there is no top
    keyword and the three means are NaN. On a table with rows, whose
    volumes, competitions and scores are numbers, the three means are the
    sums divided by the count. *)
Theorem generate_summary_returns (opp : Opportunities) :
  In "Avg. monthly searches"%string (opp_columns opp) ->
  In "Competition"%string (opp_columns opp) ->
  In "Opportunity Score"%string (opp_columns opp) ->
  In "Keyword"%string (opp_columns opp) ->
  exists s,
    generate_summary opp = inr s /\
    total_opportunities s = List.length (opp_rows opp) /\
    top_keywords s = map (fun y => Keyword (row y)) (firstn 5 (opp_rows opp)) /\
    (List.length (top_keywords s) <= 5)%nat /\
    (opp_rows opp = [] ->
       s = {| total_opportunities := 0; avg_search_volume := None;
              avg_competition := None; avg_opportunity_score := None;
              top_keywords := [] |}) /\
    (forall vols comps scores,
       opp_rows opp <> [] ->
       map (fun y => Avg_monthly_searches (row y)) (opp_rows opp) = map Some vols ->
       map (fun y => Competition (row y)) (opp_rows opp) = map Some comps ->
       map Opportunity_Score (opp_rows opp) = map Some scores ->
       avg_search_volume s = Some (sum vols / INR (List.length (opp_rows opp))) /\
       avg_competition s = Some (sum comps / INR (List.length (opp_rows opp))) /\
       avg_opportunity_score s
         = Some (sum scores / INR (List.length (opp_rows opp)))) /\
    (StronglySorted score_desc (opp_rows opp) ->
       StronglySorted score_desc (firstn 5 (opp_rows opp)) /\
       forall a b, In a (firstn 5 (opp_rows opp)) -> In b (skipn 5 (opp_rows opp)) ->
                   score_desc a b).
Proof.
  intros Hv Hc Hs Hk. unfold generate_summary.
  rewrite (opp_getitem_present opp _ _ Hv), (opp_getitem_present opp _ _ Hc),
    (opp_getitem_present opp _ _ Hs).
  rewrite (opp_getitem_present (head 5 opp) "Keyword" _ Hk).
  eexists. split; [reflexivity |].
  cbn [total_opportunities top_keywords avg_search_volume avg_competition
       avg_opportunity_score head opp_rows opp_columns].
  split; [reflexivity |]. split; [reflexivity |].
  split; [rewrite length_map; apply firstn_le_length |].
  split; [intros ->; reflexivity |].
  split; [| apply head_ranked].
  intros vols comps scores Hne Hvols Hcomps Hscores.
  assert (Hlen : forall (xs : list R) (f : ScoredRow -> option R),
            map f (opp_rows opp) = map Some xs ->
            List.length xs = List.length (opp_rows opp) /\ xs <> []).
  { intros xs f Hmap. apply (f_equal (@List.length _)) in Hmap.
    rewrite !length_map in Hmap. split; [now symmetry |].
    intros ->. destruct (opp_rows opp); [now apply Hne | discriminate]. }
  destruct (Hlen _ _ Hvols) as [Lv Nv].
  destruct (Hlen _ _ Hcomps) as [Lc Nc].
  destruct (Hlen _ _ Hscores) as [Ls Ns].
  rewrite Hvols, Hcomps, Hscores.
  rewrite !mean_present by assumption.
  now rewrite Lv, Lc, Ls.
Qed.

End Summaries.

(** ** Export *)

Section Exporting.

(** C9. The file is written under the requested name, with [.csv]
    appended when the name does not end in it; the timestamp plays no part
    in the name, the line printed or the table written. *)
Theorem export_results_path (timestamp : string) (opp : Opportunities)
  (output_filepath : string) :
  written_path (export_results timestamp opp output_filepath) =
    (if endswith output_filepath ".csv" then output_filepath
     else (output_filepath ++ ".csv")%string) /\
  (forall timestamp',
     export_results timestamp' opp output_filepath =
     export_results timestamp opp output_filepath) /\
  written_path (export_results timestamp opp "keyword_opportunities")
    = "keyword_opportunities.csv"%string.
Proof.
  unfold export_results. simpl.
  destruct (endswith output_filepath ".csv"); simpl; auto.
Qed.

End Exporting.

(** ** Properties of the score *)

Section ScoreProperties.

(** C7. On a valid record (volume at least zero, competition between zero
    and one, bid at least zero) the score is at least zero; it does not
    decrease when the volume or the bid grows, does not increase when the
    competition grows, and does not change with the bid above ten. *)
Theorem score_monotone (v c b v' c' b' : R) :
  0 <= v -> 0 <= c <= 1 -> 0 <= b ->
  0 <= v' -> 0 <= c' <= 1 -> 0 <= b' ->
  0 <= calculate_opportunity_score v c b /\
  (v <= v' -> calculate_opportunity_score v c b <= calculate_opportunity_score v' c b) /\
  (c <= c' -> calculate_opportunity_score v c' b <= calculate_opportunity_score v c b) /\
  (b <= b' -> calculate_opportunity_score v c b <= calculate_opportunity_score v c b') /\
  (10 < b -> 10 < b' ->
   calculate_opportunity_score v c b = calculate_opportunity_score v c b').
Proof.
  intros Hv Hc Hb Hv' Hc' Hb'.
  split; [apply score_nonneg; lra |].
  split; [intros H; apply score_le; lra |].
  split; [intros H; apply score_le; lra |].
  split; [intros H; apply score_le; lra |].
  intros H H'. apply score_flat; lra.
Qed.

(** C10. One hundred does not bound the score on records in range: a
    volume of one million, no competition and a bid of ten score 108. *)
Theorem score_above_100 :
  calculate_opportunity_score 1000000 0 10 = 108 /\
  exists v c b,
    0 <= v /\ 0 <= c <= 1 /\ 0 <= b /\ 100 < calculate_opportunity_score v c b.
Proof.
  split; [exact score_million |].
  exists 1000000, 0, 10. rewrite score_million. repeat split; lra.
Qed.

End ScoreProperties.

(** ** The model on the example tables *)

Section Examples.

Lemma example_analyzable : analyzable example_table.
Proof. repeat split; eexists; reflexivity. Qed.





(** The cells of the example tables, read by the decimal reader. *)
Lemma read_1200 :
  stripped_number parse_decimal "," (Some "1,200"%string) = Some 1200.
Proof. unfold stripped_number, parse_decimal. simpl. f_equal. lra. Qed.


Lemma read_0_1 : cell_number parse_decimal (Str "0.1") = Some 0.1.
Proof. unfold cell_number, parse_decimal. simpl. f_equal. lra. Qed.

Lemma read_2_50 :
  stripped_number parse_decimal "$" (Some "$2.50"%string) = Some 2.5.
Proof. unfold stripped_number, parse_decimal. simpl. f_equal. lra. Qed.

Lemma read_not_available : cell_number parse_decimal (Str "N/A") = None.
Proof. reflexivity. Qed.

(** The dollar sign inside a bid is taken out with the rest; the pound
    sign in front of a bid is not. *)
Lemma read_inner_dollar :
  stripped_number parse_decimal "$" (Some inner_dollar) = Some 250.
Proof. unfold stripped_number, parse_decimal. simpl. f_equal. lra. Qed.

Lemma read_pound_bid :
  stripped_number parse_decimal "$" (Some pound_bid) = None.
Proof. reflexivity. Qed.

End Examples.

(** ** Where the code parts from the specification *)

Section Counterexamples.

(** The worked example does not score 70.62. *)
Lemma worked_example_not_70_62 :
  calculate_opportunity_score 1200 0.1 2.5 <> 70.62.
Proof. rewrite score_example. lra. Qed.


(** Normalization is not as the specification words it. On a numeric
    volume column it raises. A dollar sign that is not in front of the bid
    is taken out as well: [2$50], which a reader of numbers refuses as it
    stands, is read as 250 and its row retained. And no other currency
    symbol is taken out: a bid in pounds, 2.50 once the leading symbol is
    dropped, is left missing and its row is not retained. *)
Lemma normalization_not_as_worded :
  (forall sort_values,
     fst (analyze_keywords parse_decimal sort_values main_analyzer
            table_with_numeric_volume)
     = inl (AttributeError "Can only use .str accessor with string values!")) /\
  (strip_leading_currency inner_dollar = inner_dollar /\
   parse_decimal inner_dollar = None /\
   forall sort_values, (forall l, Permutation l (sort_values l)) ->
     exists out df',
       analyze_keywords parse_decimal sort_values main_analyzer
         table_with_inner_dollar = (inr out, df') /\
       exists y, In y (opp_rows out) /\ label (row y) = 0%nat /\
                 Top_of_page_bid (row y) = Some 250) /\
  ((exists b, parse_decimal (strip_leading_currency pound_bid) = Some b /\
              min_cpc main_analyzer <= b) /\
   forall sort_values, (forall l, Permutation l (sort_values l)) ->
     exists out df',
       analyze_keywords parse_decimal sort_values main_analyzer
         table_with_pound_bid = (inr out, df') /\
       getitem df' "Top of page bid (low range)" = inr (Float64Series [None]) /\
       opp_rows out = []).
Proof.
  split; [| split].
  - intros sort_values.
    now rewrite (analyze_keywords_numeric_volume parse_decimal sort_values
                   main_analyzer table_with_numeric_volume
                   (text ["0.1"%string]) [Some 1200] eq_refl eq_refl).
  - split; [reflexivity |]. split; [reflexivity |].
    intros sort_values Hperm.
    assert (Hdf : analyzable table_with_inner_dollar)
      by (repeat split; eexists; reflexivity).
    pose proof (analyze_keywords_returns parse_decimal sort_values main_analyzer
                  _ Hdf) as Hrun.
    eexists. eexists. split; [exact Hrun |].
    exists {| row := {| label := 0; Keyword := Str "alpha";
                        Avg_monthly_searches := Some 1200;
                        Competition := Some 0.1;
                        Top_of_page_bid := Some 250 |};
              Opportunity_Score := Some (calculate_opportunity_score 1200 0.1 250) |}.
    split; [| split; reflexivity].
    apply (opp_rows_raw parse_decimal sort_values Hperm main_analyzer
             table_with_inner_dollar _ (text ["0.1"%string])
             (map Some ["1,200"%string]) (map Some [inner_dollar]) _ _
             eq_refl eq_refl eq_refl Hrun).
    exists (Some "1,200"%string), (Str "0.1"), (Some inner_dollar), 1200, 0.1, 250.
    cbn [row label Keyword Avg_monthly_searches Competition Top_of_page_bid
         Opportunity_Score].
    rewrite read_1200, read_0_1, read_inner_dollar.
    repeat split; simpl; lra.
  - split.
    + eexists. split; [reflexivity |]. simpl. lra.
    + intros sort_values Hperm.
      assert (Hdf : analyzable table_with_pound_bid)
        by (repeat split; eexists; reflexivity).
      pose proof (analyze_keywords_returns parse_decimal sort_values main_analyzer
                    _ Hdf) as Hrun.
      eexists. eexists. split; [exact Hrun |]. split.
      * rewrite (normalized_eq parse_decimal table_with_pound_bid
                   (text ["0.1"%string]) (map Some ["1,200"%string])
                   (map Some [pound_bid]) eq_refl eq_refl eq_refl).
        rewrite getitem_setitem_eq. cbn [map]. now rewrite read_pound_bid.
      * match goal with |- ?l = [] => destruct l as [| y l'] eqn:E end;
          [reflexivity | exfalso].
        assert (Hy : In y (opp_rows
                  {| opp_columns :=
                       columns table_with_pound_bid ++ ["Opportunity Score"%string];
                     opp_rows :=
                       sort_values (map add_score (filter (mask main_analyzer)
                         (normalized_rows parse_decimal table_with_pound_bid))) |}))
          by (rewrite E; now left).
        apply (opp_rows_raw parse_decimal sort_values Hperm main_analyzer
                 table_with_pound_bid _ (text ["0.1"%string])
                 (map Some ["1,200"%string]) (map Some [pound_bid]) _ _
                 eq_refl eq_refl eq_refl Hrun) in Hy
          as (rv & rc & rb & v & cc & b & _ & _ & _ & Hrb & _ & _ & Eb & _).
        destruct (label (row y)) as [| n]; simpl in Hrb.
        -- injection Hrb as <-. rewrite read_pound_bid in Eb. discriminate.
        -- destruct n; discriminate.
Qed.

(** A missing column comes out as a plain [Exception], as does a missing
    file. *)
Lemma missing_column_raises_plain_exception :
  load_keyword_data disk "partial.csv" =
    inl (Exception
           "Error loading keyword data: CSV must contain columns: Keyword, Avg. monthly searches, Competition, Top of page bid (low range)") /\
  load_keyword_data disk "absent.csv" =
    inl (Exception
           "Error loading keyword data: [Errno 2] No such file or directory: 'absent.csv'") /\
  (forall e, load_keyword_data disk "partial.csv" = inl e -> generic e = true).
Proof.
  split; [reflexivity |]. split; [reflexivity |].
  intros e [= <-]. reflexivity.
Qed.


End Counterexamples.

(** ** The theorems on the example tables *)

Section Witnesses.

Lemma retained_score_formula_witness :
  analyzable example_table /\
  exists out df',
    analyze_keywords parse_decimal stable_sort main_analyzer example_table
      = (inr out, df') /\
    (forall y, In y (opp_rows out) ->
       exists v c b,
         Avg_monthly_searches (row y) = Some v /\ Competition (row y) = Some c /\
         Top_of_page_bid (row y) = Some b /\
         Opportunity_Score y = Some (spec_score v c b)) /\
    calculate_opportunity_score 1200 0.1 2.5 = 65.63.
Proof.
  split; [exact example_analyzable |].
  exact (retained_score_formula parse_decimal stable_sort stable_sort_perm
           main_analyzer example_table example_analyzable).
Defined.


(** The row whose competition reads [N/A] is not in the result. *)
Lemma normalization_coerces_witness :
  getitem example_table "Competition" = inr (text ["0.1"; "0.1"; "N/A"]%string) /\
  getitem example_table "Avg. monthly searches"
    = inr (ObjectSeries (map Some ["1,200"; "500"; "2,000"]%string)) /\
  getitem example_table "Top of page bid (low range)"
    = inr (ObjectSeries (map Some ["$2.50"; "$2.50"; "$2.50"]%string)) /\
  parse_decimal "N/A" = None /\
  exists out df',
    analyze_keywords parse_decimal stable_sort main_analyzer example_table
      = (inr out, df') /\
    getitem df' "Avg. monthly searches"
      = inr (Float64Series
               (map (stripped_number parse_decimal ",")
                  (map Some ["1,200"; "500"; "2,000"]%string))) /\
    getitem df' "Competition"
      = inr (Float64Series
               (map (cell_number parse_decimal)
                  (tolist (text ["0.1"; "0.1"; "N/A"]%string)))) /\
    getitem df' "Top of page bid (low range)"
      = inr (Float64Series
               (map (stripped_number parse_decimal "$")
                  (map Some ["$2.50"; "$2.50"; "$2.50"]%string))) /\
    In {| row := {| label := 0; Keyword := Str "alpha";
                    Avg_monthly_searches := Some 1200;
                    Competition := Some 0.1;
                    Top_of_page_bid := Some 2.5 |};
          Opportunity_Score := Some (calculate_opportunity_score 1200 0.1 2.5) |}
       (opp_rows out) /\
    (forall y, In y (opp_rows out) -> label (row y) <> 2%nat).
Proof.
  split; [reflexivity |]. split; [reflexivity |]. split; [reflexivity |].
  split; [reflexivity |].
  destruct (normalization_coerces parse_decimal stable_sort stable_sort_perm
              main_analyzer example_table
              (text ["0.1"; "0.1"; "N/A"]%string)
              (map Some ["1,200"; "500"; "2,000"]%string)
              (map Some ["$2.50"; "$2.50"; "$2.50"]%string)
              eq_refl eq_refl eq_refl)
    as (out & df' & Hrun & Hvol & Hcomp & Hbid & _ & Hkept & Hout).
  exists out, df'. split; [exact Hrun |].
  split; [exact Hvol |]. split; [exact Hcomp |]. split; [exact Hbid |].
  split.
  - apply (Hkept 0%nat (Str "alpha") (Some "1,200"%string) (Str "0.1")
             (Some "$2.50"%string) 1200 0.1 2.5 eq_refl eq_refl eq_refl eq_refl
             read_1200 read_0_1 read_2_50); simpl; lra.
  - apply (Hout 2%nat (Some "2,000"%string) (Str "N/A") (Some "$2.50"%string)
             eq_refl eq_refl eq_refl).
    right. left. reflexivity.
Defined.

Lemma load_keyword_data_columns_witness :
  disk "partial.csv" = inr table_without_competition /\
  (load_keyword_data disk "partial.csv" = inr table_without_competition <->
   forall col, In col required_columns -> In col (columns table_without_competition)) /\
  ((exists col, In col required_columns /\
                ~ In col (columns table_without_competition)) <->
   load_keyword_data disk "partial.csv" =
     inl (Exception
            "Error loading keyword data: CSV must contain columns: Keyword, Avg. monthly searches, Competition, Top of page bid (low range)")) /\
  (forall e, load_keyword_data disk "partial.csv" = inl e -> generic e = true) /\
  (forall df', load_keyword_data disk "partial.csv" = inr df' ->
               df' = table_without_competition) /\
  (forall unreadable e,
     disk unreadable = inl e ->
     load_keyword_data disk unreadable
       = inl (Exception ("Error loading keyword data: " ++ str e))).
Proof.
  split; [reflexivity |].
  exact (load_keyword_data_columns disk "partial.csv" table_without_competition
           eq_refl).
Defined.

Lemma generate_summary_returns_witness :
  In "Keyword"%string (opp_columns no_opportunities) /\
  exists s,
    generate_summary no_opportunities = inr s /\
    s = {| total_opportunities := 0; avg_search_volume := None;
           avg_competition := None; avg_opportunity_score := None;
           top_keywords := [] |}.
Proof.
  split; [simpl; tauto |].
  destruct (generate_summary_returns no_opportunities)
    as (s & Hs & _ & _ & _ & Hempty & _); try (simpl; tauto).
  exists s. split; [exact Hs | now apply Hempty].
Defined.

Lemma score_monotone_witness :
  0 <= calculate_opportunity_score 1000 0.2 11 /\
  calculate_opportunity_score 1000 0.2 11 <= calculate_opportunity_score 2000 0.2 11 /\
  calculate_opportunity_score 1000 0.3 11 <= calculate_opportunity_score 1000 0.2 11 /\
  calculate_opportunity_score 1000 0.2 11 <= calculate_opportunity_score 1000 0.2 12 /\
  calculate_opportunity_score 1000 0.2 11 = calculate_opportunity_score 1000 0.2 12.
Proof.
  destruct (score_monotone 1000 0.2 11 2000 0.3 12) as (H0 & Hv & Hc & Hb & Hflat);
    [lra | lra | lra | lra | lra | lra |].
  split; [exact H0 |]. split; [apply Hv; lra |]. split; [apply Hc; lra |].
  split; [apply Hb; lra | apply Hflat; lra].
Defined.


End Witnesses.

(** ** keyword_analyzer.py: the batches *)

Section Batches.

Import keyword_analyzer.

Lemma slice_five {A} (l : list A) (i : nat) :
  slice l i (i + 5) = firstn 5 (skipn i l).
Proof. unfold slice. now replace (i + 5 - i)%nat with 5%nat by lia. Qed.

Lemma range_from_concat {A} (l : list A) (fuel i : nat) :
  (List.length l <= fuel + i)%nat ->
  List.concat (map (fun i => slice l i (i + 5)) (range_from fuel i (List.length l) 5))
  = skipn i l.
Proof.
  revert i. induction fuel as [| fuel IH]; intros i Hfuel; simpl.
  - symmetry. apply skipn_all2. lia.
  - destruct (Nat.ltb_spec i (List.length l)) as [Hlt | Hge]; simpl.
    + rewrite IH by lia. rewrite slice_five.
      replace (i + 5)%nat with (5 + i)%nat by lia.
      rewrite <- (skipn_skipn 5 i l). apply firstn_skipn.
    + symmetry. now apply skipn_all2.
Qed.

Lemma range_from_In (fuel i stop x : nat) :
  In x (range_from fuel i stop 5) -> (x < stop)%nat.
Proof.
  revert i. induction fuel as [| fuel IH]; intros i; simpl; [contradiction |].
  destruct (Nat.ltb_spec i stop) as [Hlt | Hge]; [| contradiction].
  intros [<- | H]; [assumption | eapply IH; eassumption].
Qed.

Lemma range_from_length (fuel i stop : nat) :
  (stop <= fuel + i)%nat ->
  (stop - i <= 5 * List.length (range_from fuel i stop 5) < stop - i + 5)%nat.
Proof.
  revert i. induction fuel as [| fuel IH]; intros i Hfuel; simpl; [lia |].
  destruct (Nat.ltb_spec i stop) as [Hlt | Hge]; simpl; [| lia].
  specialize (IH (i + 5)%nat). lia.
Qed.

Lemma batches_concat {A} (keywords_list : list A) :
  List.concat (batches keywords_list) = keywords_list.
Proof. unfold batches, range. rewrite range_from_concat by lia. reflexivity. Qed.

Lemma batches_sizes {A} (keywords_list : list A) (batch : list A) :
  In batch (batches keywords_list) -> (1 <= List.length batch <= 5)%nat.
Proof.
  unfold batches, range. intros Hin.
  apply in_map_iff in Hin as (i & <- & Hi).
  apply range_from_In in Hi. rewrite slice_five.
  rewrite length_firstn, length_skipn. lia.
Qed.

(** X1. The batches of a list of keywords, put end to end, are the list:
    every keyword is in one batch, in order. No batch is empty and none has
    more than five keywords; a list of [n] keywords gives [(n + 4) / 5]
    batches, none for the empty list. *)
Theorem batches_partition {A} (keywords_list : list A) :
  List.concat (batches keywords_list) = keywords_list /\
  (forall batch, In batch (batches keywords_list) ->
     (1 <= List.length batch <= 5)%nat) /\
  List.length (batches keywords_list) = ((List.length keywords_list + 4) / 5)%nat.
Proof.
  split; [apply batches_concat | split; [apply batches_sizes |]].
  unfold batches, range. rewrite length_map.
  pose proof (range_from_length (List.length keywords_list) 0
                (List.length keywords_list)) as H.
  apply (Nat.div_unique _ 5 _
    (List.length keywords_list + 4
     - 5 * List.length (range_from (List.length keywords_list) 0
                          (List.length keywords_list) 5))); lia.
Qed.

End Batches.

(** ** keyword_analyzer.py: the requests *)

Section TrendsRequests.

Import keyword_analyzer.

Variable Frame : Type.
Variable empty_frame : Frame.
Variable is_empty : Frame -> bool.
Variable concat : Frame -> Frame -> Frame.
Variable TrendReq : Exn + unit.
Variable build_payload : list string -> string -> Exn + unit.
Variable interest_over_time : list string -> string -> Exn + Frame.
Variable related_queries :
  list string -> string -> Exn + list (string * option (list string)).

Lemma payloads_app (e1 e2 : list Event) :
  payloads (e1 ++ e2) = payloads e1 ++ payloads e2.
Proof.
  induction e1 as [| ev e1 IH]; simpl; [reflexivity |].
  destruct ev; simpl; now rewrite ?IH.
Qed.

Lemma related_requests_app (e1 e2 : list Event) :
  related_requests (e1 ++ e2) = (related_requests e1 + related_requests e2)%nat.
Proof.
  induction e1 as [| ev e1 IH]; simpl; [reflexivity |].
  destruct ev; simpl; now rewrite ?IH.
Qed.

(** The inner loop sends no payload; when it ends well it has asked for the
    related queries once for each keyword, and every keyword was answered. *)
Lemma for_kw_events (batch : list string) (timeframe : string) (todo : list string)
  (r : Exn + unit) (events : list Event) :
  for_kw related_queries batch timeframe todo = (r, events) ->
  payloads events = [] /\
  (related_requests events <= List.length todo)%nat /\
  (forall u, r = inr u ->
     related_requests events = List.length todo /\
     (todo <> [] ->
      exists answer,
        related_queries batch timeframe = inr answer /\
        forall kw, In kw todo -> exists rising, dict_getitem answer kw = inr rising)).
Proof.
  revert r events. induction todo as [| kw todo IH]; simpl; intros r events Hrun.
  - injection Hrun as <- <-. simpl. split; [reflexivity |]. split; [lia |].
    intros u _. split; [reflexivity |]. intros Hne. now elim Hne.
  - destruct (related_queries batch timeframe) as [e | answer] eqn:Hq.
    { injection Hrun as <- <-. simpl. split; [reflexivity |].
      split; [lia | discriminate]. }
    destruct (dict_getitem answer kw) as [e | rising] eqn:Hkw.
    { injection Hrun as <- <-. simpl. split; [reflexivity |].
      split; [lia | discriminate]. }
    destruct (for_kw related_queries batch timeframe todo) as [r' events'] eqn:Hrest.
    injection Hrun as <- <-.
    destruct (IH _ _ eq_refl) as (Hp & Hle & Hok).
    assert (Hans : forall u, r' = inr u ->
              exists answer0,
                (inr answer : Exn + list (string * option (list string)))
                  = inr answer0 /\
                forall kw', In kw' (kw :: todo) ->
                  exists rising', dict_getitem answer0 kw' = inr rising').
    { intros u Hu. destruct (Hok u Hu) as [_ Hans].
      exists answer. split; [reflexivity |].
      intros kw' [<- | Hin]; [eauto |].
      destruct todo as [| k0 todo0]; [contradiction |].
      destruct Hans as (answer' & [= <-] & Hall); [discriminate |].
      now apply Hall. }
    destruct rising as [rising_queries |]; cbn [app payloads related_requests];
      (split; [assumption |]; split; [simpl; lia |];
       intros u Hu; destruct (Hok u Hu) as [Hn _];
       split; [simpl; lia | intros _; now apply (Hans u)]).
Qed.

(** The outer loop: the payloads sent are the first batches, in order, each
    with the timeframe; when it ends well every batch was sent and answered
    and the result is the join of the interest tables that are not empty. *)
Lemma for_batch_events (timeframe : string) (todo : list (list string))
  (results : Frame) (r : Exn + Frame) (events : list Event) :
  for_batch Frame is_empty concat build_payload interest_over_time related_queries
    timeframe todo results = (r, events) ->
  (exists k, payloads events = map (fun b => (b, timeframe)) (firstn k todo)) /\
  (related_requests events <= List.length (List.concat todo))%nat /\
  (forall res, r = inr res ->
     payloads events = map (fun b => (b, timeframe)) todo /\
     related_requests events = List.length (List.concat todo) /\
     exists tables,
       Forall2 (answered Frame build_payload interest_over_time related_queries
                  timeframe) todo tables /\
       res = join_interest is_empty concat results tables).
Proof.
  revert results r events.
  induction todo as [| batch todo IH]; simpl; intros results r events Hrun.
  - injection Hrun as <- <-. simpl. split; [exists 0%nat; reflexivity |].
    split; [lia |]. intros res [= <-]. repeat split.
    exists []. split; [constructor | reflexivity].
  - destruct (build_payload batch timeframe) as [e | []] eqn:Hb.
    { injection Hrun as <- <-. simpl. split; [exists 1%nat; reflexivity |].
      split; [lia | discriminate]. }
    destruct (interest_over_time batch timeframe) as [e | interest] eqn:Hi.
    { injection Hrun as <- <-. simpl. split; [exists 1%nat; reflexivity |].
      split; [lia | discriminate]. }
    destruct (for_kw related_queries batch timeframe batch) as [rk evk] eqn:Hk.
    destruct (for_kw_events _ _ _ _ _ Hk) as (Hpk & Hlek & Hokk).
    destruct rk as [e | u].
    { injection Hrun as <- <-. simpl. rewrite Hpk.
      split; [exists 1%nat; reflexivity |]. rewrite length_app.
      split; [lia | discriminate]. }
    destruct (for_batch Frame is_empty concat build_payload interest_over_time
                related_queries timeframe todo
                (if negb (is_empty interest) then concat results interest
                 else results)) as [r' ev'] eqn:Hrest.
    injection Hrun as <- <-.
    destruct (IH _ _ _ Hrest) as ((k & Hpre) & Hle & Hok).
    destruct (Hokk u eq_refl) as [Hnk Hans].
    simpl. rewrite payloads_app, related_requests_app, Hpk, length_app. simpl.
    split; [exists (S k); simpl; now rewrite Hpre |]. split; [lia |].
    intros res Hres. destruct (Hok res Hres) as (Hall & Hn & tables & Hf & ->).
    split; [now rewrite Hall |]. split; [lia |].
    exists (interest :: tables). split; [| reflexivity].
    constructor; [| assumption]. repeat split; assumption.
Qed.


(** X3. When the function returns a table, the connection was made and the
    service answered every request of every batch; all batches were sent,
    the related queries were asked for once per keyword, and the table is
    the join, in batch order, of the interest tables that are not empty,
    onto an empty table. Without keywords it is the empty table, after no
    request but the connection. *)
Theorem trends_result (keywords_list : list string) (timeframe : string)
  (results : Frame) (events : list Event) :
  analyze_keywords Frame empty_frame is_empty concat TrendReq build_payload
    interest_over_time related_queries keywords_list timeframe
    = (inr results, events) ->
  TrendReq = inr tt /\
  payloads events = map (fun b => (b, timeframe)) (batches keywords_list) /\
  related_requests events = List.length keywords_list /\
  (exists tables,
     Forall2 (answered Frame build_payload interest_over_time related_queries
                timeframe) (batches keywords_list) tables /\
     results = join_interest is_empty concat empty_frame tables) /\
  (keywords_list = [] -> results = empty_frame /\ events = [Connect]).
Proof.
  unfold analyze_keywords.
  destruct TrendReq as [e | []]; [discriminate |].
  destruct (for_batch Frame is_empty concat build_payload interest_over_time
              related_queries timeframe (batches keywords_list) empty_frame)
    as [r ev] eqn:Hrun.
  intros [= -> <-].
  destruct (for_batch_events _ _ _ _ _ Hrun) as (_ & _ & Hok).
  destruct (Hok results eq_refl) as (Hall & Hn & Htables).
  rewrite (batches_concat keywords_list) in Hn. cbn [payloads related_requests].
  repeat split; try assumption.
  - subst keywords_list. simpl in Hrun. now injection Hrun as <- _.
  - subst keywords_list. simpl in Hrun. now injection Hrun as _ <-.
Qed.

End TrendsRequests.

(** ** dashboard.py: the keywords of the sidebar *)

Section DashboardKeywords.

Import dashboard.

Lemma lstrip_blank (s : string) : lstrip s = EmptyString <-> blank s = true.
Proof.
  unfold blank. induction s as [| c s IH]; simpl; [tauto |].
  destruct (isspace c); simpl; [exact IH |]. split; discriminate.
Qed.

Lemma lstrip_head (s : string) :
  lstrip s = EmptyString \/
  exists c t, lstrip s = String c t /\ isspace c = false.
Proof.
  induction s as [| c s IH]; simpl; [now left |].
  destruct (isspace c) eqn:E; [exact IH | right; eauto].
Qed.

Lemma rstrip_head (c : ascii) (t : string) :
  isspace c = false -> exists t', rstrip (String c t) = String c t'.
Proof.
  intros Hc. simpl. destruct (rstrip t); [rewrite Hc |]; eauto.
Qed.

Lemma rstrip_rstrip (s : string) : rstrip (rstrip s) = rstrip s.
Proof.
  induction s as [| c s IH]; simpl; [reflexivity |].
  destruct (rstrip s) as [| c' kept] eqn:E.
  - destruct (isspace c) eqn:Hc; simpl; [reflexivity | now rewrite Hc].
  - change (rstrip (String c (String c' kept))) with
      (match rstrip (String c' kept) with
       | EmptyString => if isspace c then EmptyString else String c EmptyString
       | String a b => String c (String a b)
       end).
    now rewrite IH.
Qed.

Lemma strip_fixed (s : string) :
  lstrip (strip s) = strip s /\ rstrip (strip s) = strip s.
Proof.
  unfold strip. split; [| apply rstrip_rstrip].
  destruct (lstrip_head s) as [-> | (c & t & -> & Hc)]; [reflexivity |].
  destruct (rstrip_head c t Hc) as [t' ->]. simpl. now rewrite Hc.
Qed.

Lemma strip_blank (s : string) : strip s = EmptyString <-> blank s = true.
Proof.
  rewrite <- lstrip_blank. unfold strip.
  destruct (lstrip_head s) as [-> | (c & t & -> & Hc)]; [simpl; tauto |].
  destruct (rstrip_head c t Hc) as [t' ->]. split; discriminate.
Qed.

Lemma lstrip_chars (s : string) (a : ascii) :
  In a (list_ascii_of_string (lstrip s)) -> In a (list_ascii_of_string s).
Proof.
  induction s as [| c s IH]; simpl; [tauto |].
  destruct (isspace c); simpl; tauto.
Qed.

Lemma rstrip_chars (s : string) (a : ascii) :
  In a (list_ascii_of_string (rstrip s)) -> In a (list_ascii_of_string s).
Proof.
  induction s as [| c s IH]; simpl; [tauto |].
  destruct (rstrip s) as [| c' kept].
  - destruct (isspace c); simpl; tauto.
  - simpl in *. tauto.
Qed.

Lemma strip_chars (s : string) (a : ascii) :
  In a (list_ascii_of_string (strip s)) -> In a (list_ascii_of_string s).
Proof. intros H. now apply lstrip_chars, rstrip_chars. Qed.

(** The pieces of a split hold the characters of the string that are not
    the separator, and no other. *)
Lemma split_chars (sep : ascii) (s : string) (a : ascii) :
  In a (list_ascii_of_string s) <->
  a = sep /\ In sep (list_ascii_of_string s) \/
  a <> sep /\ exists piece, In piece (split sep s) /\ In a (list_ascii_of_string piece).
Proof.
  induction s as [| c s IH]; simpl.
  - split; [contradiction |].
    intros [[_ []] | (_ & piece & [<- | []] & [])].
  - destruct (Ascii.eqb_spec c sep) as [-> | Hne].
    + split.
      * intros [<- | Ha]; [left; auto |].
        apply IH in Ha as [(-> & _) | (Hn & piece & Hp & Ha)]; [left; auto |].
        right. split; [assumption |]. exists piece. simpl. auto.
      * intros [(-> & _) | (Hn & piece & [<- | Hp] & Ha)]; [now left | contradiction |].
        right. apply IH. right. eauto.
    + destruct (split sep s) as [| piece pieces] eqn:E.
      * split.
        -- intros [<- | Ha].
           ++ right. split; [assumption |]. exists (String c EmptyString).
              simpl. auto.
           ++ apply IH in Ha as [(-> & Hs) | (_ & piece & [] & _)].
              left. auto.
        -- intros [(-> & [Hc | Hs]) | (Hn & piece & [<- | []] & [<- | []])];
             [now elim Hne | | now left].
           right. apply IH. left. auto.
      * split.
        -- intros [<- | Ha].
           ++ right. split; [assumption |]. exists (String c piece).
              simpl. auto.
           ++ apply IH in Ha as [(-> & Hs) | (Hn & p & Hp & Ha)]; [left; auto |].
              right. split; [assumption |].
              destruct Hp as [<- | Hp].
              ** exists (String c piece). simpl. auto.
              ** exists p. simpl. auto.
        -- intros [(-> & [Hc | Hs]) | (Hn & p & [<- | Hp] & Ha)].
           ++ now elim Hne.
           ++ right. apply IH. left. auto.
           ++ simpl in Ha. destruct Ha as [<- | Ha]; [now left |].
              right. apply IH. right. split; [assumption |].
              exists piece. simpl. auto.
           ++ right. apply IH. right. split; [assumption |].
              exists p. simpl. auto.
Qed.

Lemma split_no_sep (sep : ascii) (s piece : string) :
  In piece (split sep s) -> ~ In sep (list_ascii_of_string piece).
Proof.
  revert piece. induction s as [| c s IH]; simpl; intros piece.
  - intros [<- | []]. simpl. tauto.
  - destruct (Ascii.eqb_spec c sep) as [-> | Hne].
    + intros [<- | Hp]; [simpl; tauto | now apply IH].
    + destruct (split sep s) as [| p pieces] eqn:E.
      * intros [<- | []]. simpl. intros [-> | []]. now elim Hne.
      * intros [<- | Hp].
        -- simpl. intros [-> | Hin]; [now elim Hne |].
           apply (IH p); [now left | assumption].
        -- apply IH. now right.
Qed.

Lemma blank_chars (s : string) :
  blank s = true <-> forall a, In a (list_ascii_of_string s) -> isspace a = true.
Proof. unfold blank. apply forallb_forall. Qed.

(** X4. The keywords read from the box are at most five; each is a line of
    the input with the white space at its ends taken off, is not empty,
    neither starts nor ends with white space (stripping it again changes
    nothing) and holds no line break. *)
Theorem keywords_clean (keywords_input : string) :
  (List.length (keywords keywords_input) <= 5)%nat /\
  forall k, In k (keywords keywords_input) ->
    k <> EmptyString /\
    lstrip k = k /\ rstrip k = k /\
    ~ In (ascii_of_nat 10) (list_ascii_of_string k) /\
    exists line, In line (split (ascii_of_nat 10) keywords_input) /\ k = strip line.
Proof.
  unfold keywords. split; [apply firstn_le_length |].
  intros k Hk. apply firstn_incl in Hk.
  apply in_map_iff in Hk as (line & <- & Hline).
  apply filter_In in Hline as [Hline Htruthy].
  destruct (strip_fixed line) as [Hl Hr].
  split; [| split; [exact Hl | split; [exact Hr | split]]].
  - intros E. rewrite E in Htruthy. discriminate.
  - intros Hin. apply strip_chars in Hin.
    now apply (split_no_sep _ _ _ Hline).
  - now exists line.
Qed.

(** X5. No keyword is read exactly when the input is white space only
    (empty, or blank lines): then, and only then, the dashboard asks the
    service nothing. *)
Theorem keywords_none_iff_blank (keywords_input : string) :
  keywords keywords_input = [] <-> blank keywords_input = true.
Proof.
  unfold keywords.
  set (lines := split (ascii_of_nat 10) keywords_input).
  assert (Hnone : firstn 5 (map strip (filter (fun k => truthy (strip k)) lines)) = []
                  <-> forall line, In line lines -> blank line = true).
  { split.
    - intros H line Hline. apply strip_blank.
      destruct (strip line) as [| c t] eqn:E; [reflexivity | exfalso].
      assert (Hin : In line (filter (fun k => truthy (strip k)) lines)).
      { apply filter_In. split; [assumption |]. now rewrite E. }
      destruct (filter (fun k => truthy (strip k)) lines); [contradiction |].
      discriminate.
    - intros H.
      replace (filter (fun k => truthy (strip k)) lines) with (@nil string);
        [reflexivity |].
      symmetry. induction lines as [| l ls IH]; simpl; [reflexivity |].
      rewrite (proj2 (strip_blank l)) by (apply H; now left). simpl.
      apply IH. intros line Hl. apply H. now right. }
  rewrite Hnone. rewrite blank_chars. split.
  - intros H a Ha.
    apply (split_chars (ascii_of_nat 10)) in Ha as [(-> & _) | (_ & p & Hp & Ha)];
      [reflexivity |].
    exact (proj1 (blank_chars p) (H p Hp) a Ha).
  - intros H line Hline. apply blank_chars. intros a Ha.
    apply H. apply (split_chars (ascii_of_nat 10)).
    destruct (Ascii.eqb_spec a (ascii_of_nat 10)) as [-> | Hne].
    + exfalso. now apply (split_no_sep _ _ _ Hline).
    + right. split; [assumption |]. now exists line.
Qed.

Lemma batches_small {A} (l : list A) :
  l <> [] -> (List.length l <= 5)%nat -> keyword_analyzer.batches l = [l].
Proof.
  intros Hne Hlen. unfold keyword_analyzer.batches, keyword_analyzer.range.
  destruct l as [| a l]; [now elim Hne |].
  cbn [List.length keyword_analyzer.range_from].
  replace (0 <? S (List.length l))%nat with true
    by (symmetry; apply Nat.ltb_lt; lia).
  assert (Hrest : keyword_analyzer.range_from (List.length l) (0 + 5)
                    (S (List.length l)) 5 = []).
  { destruct (List.length l) as [| n] eqn:E; [reflexivity |]. simpl.
    replace (5 <? S (S n))%nat with false; [reflexivity |].
    symmetry. apply Nat.ltb_ge. simpl in Hlen. lia. }
  rewrite Hrest. cbn [map]. unfold keyword_analyzer.slice.
  cbn [skipn Nat.add Nat.sub]. f_equal. apply firstn_all2. exact Hlen.
Qed.

Lemma dict_getitem_missing {V} (d : list (string * V)) (k : string) :
  ~ In k (map fst d) ->
  keyword_analyzer.dict_getitem d k = inl (KeyError k).
Proof.
  induction d as [| [k0 v] d IH]; simpl; intros Hno; [reflexivity |].
  destruct (String.eqb_spec k0 k) as [-> | Hne]; [exfalso; tauto |].
  apply IH. tauto.
Qed.

(** X6. For every choice the timeframe box offers, the dashboard's request
    is well formed whatever the keyword box holds: the dictionary has the
    choice (no [KeyError]); nothing is sent exactly when no keyword was
    read; what is sent are the keywords read from the box, between one and
    five, with the timeframe the dictionary gives, and they fit in one batch
    of [keyword_analyzer]. A timeframe that is not a choice of the box
    raises [KeyError] as soon as there is a keyword. *)
Theorem dashboard_payload (timeframe keywords_input : string) :
  In timeframe timeframe_options ->
  exists request,
    payload timeframe keywords_input = inr request /\
    (request = None <-> keywords keywords_input = []) /\
    (forall kws tf, request = Some (kws, tf) ->
       kws = keywords keywords_input /\
       (1 <= List.length kws <= 5)%nat /\
       In (timeframe, tf) timeframe_map /\
       keyword_analyzer.batches kws = [kws]) /\
    (forall other,
       ~ In other timeframe_options -> keywords keywords_input <> [] ->
       payload other keywords_input = inl (KeyError other)).
Proof.
  intros Hopt.
  assert (Htf : exists tf,
            keyword_analyzer.dict_getitem timeframe_map timeframe = inr tf /\
            In (timeframe, tf) timeframe_map).
  { simpl in Hopt.
    destruct Hopt as [<- | [<- | [<- | [<- | []]]]];
      eexists; (split; [reflexivity | simpl; tauto]). }
  destruct Htf as (tf & Hget & Hin).
  assert (Hlen : (List.length (keywords keywords_input) <= 5)%nat)
    by (unfold keywords; apply firstn_le_length).
  assert (Hother : forall other,
            ~ In other timeframe_options -> keywords keywords_input <> [] ->
            payload other keywords_input = inl (KeyError other)).
  { intros other Hno Hne. unfold payload.
    destruct (keywords keywords_input) as [| k kws]; [now elim Hne |].
    now rewrite (dict_getitem_missing timeframe_map other Hno). }
  unfold payload at 1. rewrite Hget.
  destruct (keywords keywords_input) as [| k kws] eqn:E.
  - exists None. split; [reflexivity |]. split; [tauto |].
    split; [discriminate | exact Hother].
  - exists (Some (k :: kws, tf)). split; [reflexivity |].
    split; [split; discriminate |]. split; [| exact Hother].
    intros kws' tf' [= <- <-]. split; [reflexivity |].
    split; [simpl in *; lia |]. split; [assumption |].
    apply batches_small; [discriminate | exact Hlen].
Qed.

End DashboardKeywords.

(** ** old-way.py: what the analysis raises, and what it keeps *)

Section AnalysisOutcomes.

Variable parse_float : string -> option R.
Variable sort_values : list ScoredRow -> list ScoredRow.
Hypothesis sort_values_perm : forall l, Permutation l (sort_values l).

Lemma getitem_KeyError (df : DataFrame) (l : string) (e : Exn) :
  getitem df l = inl e -> e = KeyError l /\ ~ In l (columns df).
Proof.
  unfold columns. induction df as [| [l0 s0] rest IH]; simpl.
  - intros [= <-]. tauto.
  - destruct (String.eqb_spec l0 l) as [-> | Hne]; [discriminate |].
    intros H. destruct (IH H) as [-> Hno]. split; [reflexivity |]. tauto.
Qed.

Lemma getitem_columns (df : DataFrame) (l : string) (s : Series) :
  getitem df l = inr s -> In l (columns df).
Proof.
  unfold columns. induction df as [| [l0 s0] rest IH]; simpl; [discriminate |].
  destruct (String.eqb_spec l0 l) as [-> | Hne]; [now left |].
  intros H. right. now apply IH.
Qed.

(** The two ways the analysis fails, and the state it leaves. *)
Lemma analyze_keywords_failure (self : KeywordOpportunityAnalyzer)
  (df df' : DataFrame) (e : Exn) :
  analyze_keywords parse_float sort_values self df = (inl e, df') ->
  ((exists l, e = KeyError l /\ In l metric_columns /\ ~ In l (columns df)) \/
   (e = AttributeError "Can only use .str accessor with string values!" /\
    exists l values,
      (l = "Avg. monthly searches"%string \/
       l = "Top of page bid (low range)"%string) /\
      getitem df l = inr (Float64Series values))) /\
  (forall c, getitem df "Competition" = inr c ->
     getitem df' "Competition" = inr (Float64Series (to_numeric parse_float c))).
Proof.
  unfold analyze_keywords, bind, df_get, df_set, df_read, lift, ret.
  destruct (getitem df "Competition") as [e0 | c] eqn:Hc.
  { intros [= <- <-]. split; [| discriminate]. left.
    destruct (getitem_KeyError _ _ _ Hc) as [-> Hno].
    exists "Competition"%string. unfold metric_columns. simpl. tauto. }
  cbn beta iota. rewrite getitem_setitem_ne by discriminate.
  destruct (getitem df "Avg. monthly searches") as [e0 | [v | v]] eqn:Hv.
  { intros [= <- <-]. split.
    - left. destruct (getitem_KeyError _ _ _ Hv) as [-> Hno].
      exists "Avg. monthly searches"%string. unfold metric_columns. simpl. tauto.
    - intros c' [= <-]. apply getitem_setitem_eq. }
  2: { cbn beta iota. unfold str_replace at 1. intros [= <- <-]. split.
       - right. split; [reflexivity |]. eauto.
       - intros c' [= <-]. apply getitem_setitem_eq. }
  cbn beta iota. unfold str_replace at 1. cbn beta iota.
  rewrite !getitem_setitem_ne by discriminate.
  destruct (getitem df "Top of page bid (low range)") as [e0 | [b | b]] eqn:Hb.
  { intros [= <- <-]. split.
    - left. destruct (getitem_KeyError _ _ _ Hb) as [-> Hno].
      exists "Top of page bid (low range)"%string.
      unfold metric_columns. simpl. tauto.
    - intros c' [= <-]. rewrite getitem_setitem_ne by discriminate.
      apply getitem_setitem_eq. }
  - cbn beta iota. unfold str_replace at 1. cbn beta iota. discriminate.
  - cbn beta iota. unfold str_replace at 1. intros [= <- <-]. split.
    + right. split; [reflexivity |]. eauto.
    + intros c' [= <-]. rewrite getitem_setitem_ne by discriminate.
      apply getitem_setitem_eq.
Qed.

(** X7. When the analysis raises, it is for one of two reasons: a
    [KeyError] naming one of the three metric columns, which the table does
    not have, or an [AttributeError] because the volume or the bid column is
    numeric, not text. By then the competition column, read first, has been
    overwritten by its numeric reading if the table has it, and no result
    comes with the error. *)
Theorem analyze_keywords_errors (self : KeywordOpportunityAnalyzer)
  (df df' : DataFrame) (e : Exn) :
  analyze_keywords parse_float sort_values self df = (inl e, df') ->
  ((exists l, e = KeyError l /\ In l metric_columns /\ ~ In l (columns df)) \/
   (e = AttributeError "Can only use .str accessor with string values!" /\
    exists l values,
      (l = "Avg. monthly searches"%string \/
       l = "Top of page bid (low range)"%string) /\
      getitem df l = inr (Float64Series values))) /\
  (forall c, getitem df "Competition" = inr c ->
     getitem df' "Competition" = inr (Float64Series (to_numeric parse_float c))) /\
  ~ analyzable df.
Proof.
  intros Hrun.
  destruct (analyze_keywords_failure self df df' e Hrun) as [Hkind Hcomp].
  split; [exact Hkind |]. split; [exact Hcomp |].
  intros Hdf. rewrite (analyze_keywords_returns _ _ _ _ Hdf) in Hrun.
  discriminate.
Qed.

(** X8. Whether it returns or raises, the analysis leaves the table with
    the column labels it had, in their order, and with every column other
    than the three metric columns as it was. *)
Theorem analyze_keywords_keeps_other_columns (self : KeywordOpportunityAnalyzer)
  (df : DataFrame) :
  let df' := snd (analyze_keywords parse_float sort_values self df) in
  columns df' = columns df /\
  forall l, ~ In l metric_columns -> getitem df' l = getitem df l.
Proof.
  assert (Hne : forall l, ~ In l metric_columns ->
            "Competition"%string <> l /\ "Avg. monthly searches"%string <> l /\
            "Top of page bid (low range)"%string <> l).
  { unfold metric_columns. simpl. intros l H. repeat split; intros <-; tauto. }
  cbv zeta.
  destruct (analyze_keywords parse_float sort_values self df) as [r df'] eqn:Hrun.
  cbn [snd]. revert Hrun.
  unfold analyze_keywords, bind, df_get, df_set, df_read, lift, ret.
  destruct (getitem df "Competition") as [e0 | c] eqn:Hc.
  { intros [= <- <-]. auto. }
  cbn beta iota. rewrite getitem_setitem_ne by discriminate.
  assert (H1 : columns (setitem df "Competition"
                  (Float64Series (to_numeric parse_float c))) = columns df)
    by (eapply columns_setitem; eassumption).
  destruct (getitem df "Avg. monthly searches") as [e0 | [v | v]] eqn:Hv.
  { intros [= <- <-]. split; [assumption |]. intros l Hl.
    now rewrite getitem_setitem_ne by apply (Hne l Hl). }
  2: { cbn beta iota. unfold str_replace at 1. intros [= <- <-].
       split; [assumption |]. intros l Hl.
       now rewrite getitem_setitem_ne by apply (Hne l Hl). }
  cbn beta iota. unfold str_replace at 1. cbn beta iota.
  rewrite !getitem_setitem_ne by discriminate.
  assert (H2 : columns
                 (setitem (setitem df "Competition"
                             (Float64Series (to_numeric parse_float c)))
                    "Avg. monthly searches"
                    (Float64Series
                       (to_numeric parse_float
                          (ObjectSeries (map (option_map (replace_char "," "")) v)))))
               = columns df).
  { rewrite (columns_setitem _ _ _ (ObjectSeries v)); [assumption |].
    now rewrite getitem_setitem_ne by discriminate. }
  destruct (getitem df "Top of page bid (low range)") as [e0 | [b | b]] eqn:Hb.
  - intros [= <- <-]. split; [assumption |]. intros l Hl.
    now rewrite !getitem_setitem_ne by apply (Hne l Hl).
  - cbn beta iota. unfold str_replace at 1. cbn beta iota.
    intros [= <- <-]. split.
    + rewrite (columns_setitem _ _ _ (ObjectSeries b)); [assumption |].
      now rewrite !getitem_setitem_ne by discriminate.
    + intros l Hl. now rewrite !getitem_setitem_ne by apply (Hne l Hl).
  - cbn beta iota. unfold str_replace at 1. intros [= <- <-].
    split; [assumption |]. intros l Hl.
    now rewrite !getitem_setitem_ne by apply (Hne l Hl).
Qed.

Lemma iterrows_labels (i : nat) (kw : list cell) (vol comp bid : list (option R)) :
  map label (iterrows i kw vol comp bid)
  = seq i (List.length (iterrows i kw vol comp bid)).
Proof.
  revert i vol comp bid. induction kw as [| k kw IH]; intros i vol comp bid;
    simpl; [reflexivity |].
  destruct vol, comp, bid; simpl; try reflexivity. now rewrite IH.
Qed.

Lemma NoDup_map_filter {A B} (g : A -> B) (f : A -> bool) (l : list A) :
  NoDup (map g l) -> NoDup (map g (filter f l)).
Proof.
  induction l as [| a l IH]; simpl; intros H; [constructor |].
  inversion H as [| ? ? Hnotin Hnd]; subst.
  destruct (f a); simpl; [| now apply IH].
  constructor; [| now apply IH].
  intros Hin. apply Hnotin. apply in_map_iff in Hin as (x & Hx & Hf).
  apply filter_In in Hf as [Hf _]. apply in_map_iff. eauto.
Qed.

Lemma normalized_rows_NoDup (df : DataFrame) :
  NoDup (map label (normalized_rows parse_float df)).
Proof.
  unfold normalized_rows.
  destruct (getitem df "Competition") as [| c]; [constructor |].
  destruct (getitem df "Avg. monthly searches") as [| [v | v]]; try constructor.
  destruct (getitem df "Top of page bid (low range)") as [| [b | b]];
    try constructor.
  rewrite iterrows_labels. apply seq_NoDup.
Qed.

(** X9. The result holds each row of the table at most once: no two of its
    rows have the same index label. It has as many rows as the table has
    rows within the thresholds, never more than the table. *)
Theorem result_rows_distinct (self : KeywordOpportunityAnalyzer)
  (df df' : DataFrame) (out : Opportunities) :
  analyze_keywords parse_float sort_values self df = (inr out, df') ->
  NoDup (map (fun y => label (row y)) (opp_rows out)) /\
  List.length (opp_rows out)
    = List.length (filter (mask self) (normalized_rows parse_float df)) /\
  (List.length (opp_rows out) <= List.length (normalized_rows parse_float df))%nat.
Proof.
  intros Hrun.
  assert (Hdf : analyzable df).
  { apply (analyze_keywords_returns_iff parse_float sort_values self). eauto. }
  rewrite analyze_keywords_returns in Hrun by assumption.
  injection Hrun as <- _. cbn [opp_rows].
  pose proof (sort_values_perm
                (map add_score (filter (mask self) (normalized_rows parse_float df))))
    as Hperm.
  assert (Hlen : List.length
                   (sort_values (map add_score
                      (filter (mask self) (normalized_rows parse_float df))))
                 = List.length (filter (mask self) (normalized_rows parse_float df))).
  { rewrite <- (Permutation_length Hperm). apply length_map. }
  split; [| split; [exact Hlen |]].
  - apply (Permutation_NoDup
             (Permutation_map (fun y => label (row y)) Hperm)).
    rewrite map_map. cbn [add_score row].
    apply NoDup_map_filter, normalized_rows_NoDup.
  - rewrite Hlen. apply filter_length_le.
Qed.

(** X10. Tighter thresholds keep fewer rows: when one analyzer asks for at
    least the volume and bid of another and allows at most its competition,
    every row it keeps, the other keeps too, with the same score. *)
Theorem tighter_thresholds_keep_fewer (loose tight : KeywordOpportunityAnalyzer)
  (df : DataFrame) (out_loose out_tight : Opportunities) (df1 df2 : DataFrame) :
  min_search_volume loose <= min_search_volume tight ->
  max_competition tight <= max_competition loose ->
  min_cpc loose <= min_cpc tight ->
  analyze_keywords parse_float sort_values loose df = (inr out_loose, df1) ->
  analyze_keywords parse_float sort_values tight df = (inr out_tight, df2) ->
  (forall y, In y (opp_rows out_tight) -> In y (opp_rows out_loose)) /\
  (List.length (opp_rows out_tight) <= List.length (opp_rows out_loose))%nat.
Proof.
  intros Hv Hc Hb Hloose Htight.
  assert (Hdf : analyzable df).
  { apply (analyze_keywords_returns_iff parse_float sort_values loose). eauto. }
  assert (Hmask : forall x, mask tight x = true -> mask loose x = true).
  { intros x Hx. apply mask_true in Hx as (v & c & b & Ev & Ec & Eb & H1 & H2 & H3).
    apply mask_true. exists v, c, b. repeat split; try assumption; lra. }
  split.
  - intros y Hy.
    apply (opp_rows_In parse_float sort_values sort_values_perm tight df _ _ y Hdf Htight)
      in Hy as (x & Hx & Hm & ->).
    apply (opp_rows_In parse_float sort_values sort_values_perm loose df _ _ _ Hdf Hloose).
    exists x. auto.
  - rewrite analyze_keywords_returns in Hloose, Htight by assumption.
    injection Hloose as <- _. injection Htight as <- _. cbn [opp_rows].
    rewrite <- !(Permutation_length (sort_values_perm _)), !length_map.
    induction (normalized_rows parse_float df) as [| x rows IH]; simpl; [lia |].
    destruct (mask tight x) eqn:Et.
    + rewrite (Hmask x Et). simpl. lia.
    + destruct (mask loose x); simpl; lia.
Qed.

(** X11. A table without the keyword column is analysed all the same, the
    analysis never reading that column, but its result cannot be summarised:
    the summary raises [KeyError] for ['Keyword']. *)
Theorem summary_needs_keyword_column (self : KeywordOpportunityAnalyzer)
  (df : DataFrame) :
  analyzable df -> ~ In "Keyword"%string (columns df) ->
  exists out df',
    analyze_keywords parse_float sort_values self df = (inr out, df') /\
    generate_summary out = inl (KeyError "Keyword").
Proof.
  intros Hdf Hno.
  rewrite analyze_keywords_returns by assumption.
  eexists. eexists. split; [reflexivity |].
  destruct Hdf as ((c & Hc) & (v & Hv) & _).
  unfold generate_summary.
  rewrite !opp_getitem_present
    by (cbn [opp_columns]; apply in_or_app;
        first [ left; eapply getitem_columns; eassumption | right; now left ]).
  unfold opp_getitem. cbn [head opp_columns].
  replace (has_column (columns df ++ ["Opportunity Score"%string]) "Keyword")
    with false; [reflexivity |].
  symmetry. unfold has_column.
  destruct (existsb (String.eqb "Keyword")
              (columns df ++ ["Opportunity Score"%string])) eqn:E; [| reflexivity].
  apply existsb_exists in E as (l & Hl & Ee). apply String.eqb_eq in Ee. subst l.
  apply in_app_or in Hl as [Hl | [Hl | []]]; [contradiction | discriminate].
Qed.

End AnalysisOutcomes.

(** ** old-way.py: more on the score *)

Section ScoreBounds.

Lemma round_100 : round 100 2 = 100.
Proof. rewrite (round_2_unique 100 10000); lra. Qed.

Lemma log10_100000 : log10 100000 = 5.
Proof.
  replace 100000 with (10 ^ 5) by (simpl; ring).
  rewrite log10_pow10. simpl. lra.
Qed.

(** X12. Up to a volume of one hundred thousand the score does not exceed
    one hundred, whatever the bid, for a competition that is not negative. *)
Theorem score_at_most_100 (v c b : R) :
  v <= 100000 -> 0 <= c -> calculate_opportunity_score v c b <= 100.
Proof.
  intros Hv Hc. unfold calculate_opportunity_score.
  unfold weights.volume, weights.competition, weights.cpc.
  rewrite <- round_100 at 2. apply round_le.
  assert (Hl : log10 (Rmax v 1) <= 5).
  { rewrite <- log10_100000. apply log10_le.
    - pose proof (Rmax_r v 1). lra.
    - apply Rmax_lub; lra. }
  pose proof (Rmin_r (b / 10) 1). lra.
Qed.


(** X14. Rounding moves the score by half a hundredth at most: the score
    differs from the weighted sum, times one hundred, by no more than
    0.005. *)
Theorem score_rounding_error (v c b : R) :
  Rabs (calculate_opportunity_score v c b
        - (8 * log10 (Rmax v 1) + 40 * (1 - c) + 20 * Rmin (b / 10) 1))
  <= 0.005.
Proof.
  unfold calculate_opportunity_score, round.
  unfold weights.volume, weights.competition, weights.cpc.
  set (raw := (log10 (Rmax v 1) / 5 * 0.4 + (1 - c) * 0.4
               + Rmin (b / 10) 1 * 0.2) * 100).
  replace (8 * log10 (Rmax v 1) + 40 * (1 - c) + 20 * Rmin (b / 10) 1)
    with raw by (unfold raw; lra).
  replace (10 ^ 2) with 100 by (simpl; ring).
  pose proof (rint_bound (raw * 100)) as [Hlo Hhi].
  apply Rabs_le. lra.
Qed.

End ScoreBounds.

(** ** old-way.py: analysis, then summary *)

Section Pipeline.

Variable parse_float : string -> option R.
Variable sort_values : list ScoredRow -> list ScoredRow.
Variable read_csv : string -> Exn + DataFrame.
Hypothesis sort_values_perm : forall l, Permutation l (sort_values l).

(** X15. After a load that returns, the analysis raises no [KeyError]: if
    it raises at all it is the [AttributeError] of a numeric volume or bid
    column. If it returns, the summary of its result returns too; the count
    is the number of rows of the table within the thresholds and the top
    keywords are as many as the count, up to five. *)
Theorem load_analyze_summarize (self : KeywordOpportunityAnalyzer)
  (filepath : string) (df : DataFrame) :
  load_keyword_data read_csv filepath = inr df ->
  (forall e df',
     analyze_keywords parse_float sort_values self df = (inl e, df') ->
     e = AttributeError "Can only use .str accessor with string values!") /\
  (forall out df',
     analyze_keywords parse_float sort_values self df = (inr out, df') ->
     exists summary,
       generate_summary out = inr summary /\
       total_opportunities summary
         = List.length (filter (mask self) (normalized_rows parse_float df)) /\
       List.length (top_keywords summary)
         = Nat.min 5 (total_opportunities summary)).
Proof.
  intros Hload.
  assert (Hcols : forall col, In col required_columns -> In col (columns df)).
  { revert Hload. unfold load_keyword_data.
    destruct (read_csv filepath) as [e | df0]; [discriminate |].
    destruct (forallb (has_column (columns df0)) required_columns) eqn:E;
      simpl; [| discriminate].
    intros [= <-]. now apply required_columns_present. }
  split.
  - intros e df' Hrun.
    destruct (analyze_keywords_failure parse_float sort_values self df df' e Hrun)
      as [[(l & -> & Hl & Hno) | [-> _]] _]; [| reflexivity].
    exfalso. apply Hno, Hcols. unfold metric_columns, required_columns in *.
    simpl in *. tauto.
  - intros out df' Hrun.
    destruct (analysis_columns parse_float sort_values self df df' out)
      as (Hv & Hc & Hs & Hk); [apply Hcols; simpl; tauto | assumption |].
    unfold generate_summary.
    rewrite (opp_getitem_present out _ _ Hv), (opp_getitem_present out _ _ Hc),
      (opp_getitem_present out _ _ Hs).
    rewrite (opp_getitem_present (head 5 out) "Keyword" _ Hk).
    eexists. split; [reflexivity |].
    cbn [total_opportunities top_keywords head opp_rows].
    split; [| now rewrite length_map, length_firstn].
    assert (Hdf : analyzable df).
    { apply (analyze_keywords_returns_iff parse_float sort_values self). eauto. }
    rewrite analyze_keywords_returns in Hrun by assumption.
    injection Hrun as <- _. cbn [opp_rows].
    now rewrite <- (Permutation_length (sort_values_perm _)), length_map.
Qed.

End Pipeline.

(** ** old-way.py: the export and the script *)

Section Script.

Variable parse_float : string -> option R.
Variable sort_values : list ScoredRow -> list ScoredRow.
Variable read_csv : string -> Exn + DataFrame.
Variable timestamp : string.
Variable format_2f : R -> string.
Variable repr_float : R -> string.

Lemma length_append (s t : string) :
  String.length (s ++ t) = (String.length s + String.length t)%nat.
Proof. induction s as [| c s IH]; simpl; [reflexivity | now rewrite IH]. Qed.

Lemma substring_whole (t : string) : substring 0 (String.length t) t = t.
Proof. induction t as [| c t IH]; simpl; [reflexivity | now rewrite IH]. Qed.

Lemma substring_append (s t : string) :
  substring (String.length s) (String.length t) (s ++ t) = t.
Proof.
  induction s as [| c s IH]; simpl; [apply substring_whole | exact IH].
Qed.

Lemma endswith_append (s t : string) : endswith (s ++ t) t = true.
Proof.
  unfold endswith. rewrite length_append.
  replace (String.length s + String.length t - String.length t)%nat
    with (String.length s) by lia.
  rewrite substring_append, String.eqb_refl.
  replace (String.length t <=? String.length s + String.length t)%nat with true;
    [reflexivity |].
  symmetry. apply Nat.leb_le. lia.
Qed.

Lemma prefix_append (s t : string) : prefix s (s ++ t) = true.
Proof.
  induction s as [| c s IH]; simpl; [now destruct t |].
  destruct (ascii_dec c c); [exact IH | contradiction].
Qed.

(** X17. The file written always has a name that ends in [.csv] and
    starts with the name asked for; exporting under the name of the file
    written leaves the name as it is. *)
Theorem export_results_extension (opp : Opportunities) (output_filepath : string) :
  let file := export_results timestamp opp output_filepath in
  endswith (written_path file) ".csv" = true /\
  prefix output_filepath (written_path file) = true /\
  (forall timestamp' opp',
     written_path (export_results timestamp' opp' (written_path file))
     = written_path file) /\
  written_table file = opp.
Proof.
  cbv zeta. unfold export_results. cbn [written_path written_table].
  destruct (endswith output_filepath ".csv") eqn:E; cbn [negb].
  - rewrite E. cbn [negb]. repeat split; try assumption.
    rewrite <- (prefix_append output_filepath ""). f_equal.
    clear. induction output_filepath as [| c s IH]; simpl; [reflexivity |].
    now rewrite <- IH.
  - rewrite endswith_append. cbn [negb]. repeat split.
    apply prefix_append.
Qed.

(** X18. The script never lets an error out, and writes a file exactly
    when the export reads as a table that has the four required columns and
    whose volume and bid columns are text: then it prints the two progress
    lines, the summary and the name of the file, and the file,
    [keyword_opportunities.csv], holds the result of the analysis. In every
    other case it writes no file, and what it prints is the progress so far
    followed by one line that starts with [Error: ]. *)
Theorem main_outcome :
  let run := main parse_float sort_values read_csv timestamp format_2f repr_float in
  (forall df,
     read_csv "keyword_planner_export.csv" = inr df ->
     (forall col, In col required_columns -> In col (columns df)) ->
     analyzable df ->
     exists out df' summary,
       analyze_keywords parse_float sort_values main_analyzer df = (inr out, df') /\
       generate_summary out = inr summary /\
       stdout run =
         ["Loading keyword data..."; "Analyzing keywords..."]%string
         ++ summary_lines format_2f repr_float summary
         ++ ["Results exported to: keyword_opportunities.csv"%string] /\
       exported run =
         Some {| written_path := "keyword_opportunities.csv";
                 written_table := out;
                 printed := "Results exported to: keyword_opportunities.csv" |}) /\
  (~ (exists df,
        read_csv "keyword_planner_export.csv" = inr df /\
        (forall col, In col required_columns -> In col (columns df)) /\
        analyzable df) ->
   exported run = None /\
   exists progress e,
     stdout run = "Loading keyword data..."%string :: progress
                  ++ [("Error: " ++ str e)%string] /\
     (progress = [] \/ progress = ["Analyzing keywords..."%string])).
Proof.
  cbv zeta. unfold main. split.
  - intros df Hread Hcols Hdf.
    rewrite (load_keyword_data_readable read_csv _ df Hread).
    rewrite (proj2 (required_columns_present df) Hcols).
    rewrite analyze_keywords_returns by assumption. cbn [fst].
    destruct (analysis_columns parse_float sort_values main_analyzer df _ _
                (Hcols "Keyword"%string ltac:(simpl; tauto))
                (analyze_keywords_returns parse_float sort_values main_analyzer df Hdf))
      as (Hv & Hc & Hs & Hk).
    eexists. eexists. eexists. split; [reflexivity |].
    unfold generate_summary.
    rewrite (opp_getitem_present _ _ _ Hv), (opp_getitem_present _ _ _ Hc),
      (opp_getitem_present _ _ _ Hs).
    rewrite (opp_getitem_present (head 5 _) "Keyword" _ Hk).
    split; [reflexivity |]. cbn [stdout exported].
    split; [now rewrite <- !app_assoc | reflexivity].
  - intros Hno.
    destruct (read_csv "keyword_planner_export.csv") as [e | df] eqn:Hread.
    { rewrite (load_keyword_data_unreadable read_csv _ e Hread).
      cbn [stdout exported]. split; [reflexivity |].
      exists [], (Exception ("Error loading keyword data: " ++ str e)).
      split; [reflexivity | now left]. }
    rewrite (load_keyword_data_readable read_csv _ df Hread).
    destruct (forallb (has_column (columns df)) required_columns) eqn:Hcols.
    2: { cbn [stdout exported]. split; [reflexivity |].
         eexists [], (Exception _). split; [reflexivity | now left]. }
    pose proof (proj1 (required_columns_present df) Hcols) as Hall.
    destruct (analyze_keywords parse_float sort_values main_analyzer df)
      as [[e | out] df'] eqn:Hrun.
    + cbn [fst stdout exported]. split; [reflexivity |].
      exists ["Analyzing keywords..."%string], e.
      split; [reflexivity | now right].
    + exfalso. apply Hno. exists df. split; [reflexivity |].
      split; [exact Hall |].
      apply (analyze_keywords_returns_iff parse_float sort_values main_analyzer).
      eauto.
Qed.

End Script.

(** ** The further theorems on the example data *)

Section MoreWitnesses.

Lemma trends_result_witness :
  exists results events,
    echo_analyze tied_keywords keyword_analyzer.default_timeframe
      = (inr results, events) /\
    keyword_analyzer.payloads events
      = map (fun b => (b, keyword_analyzer.default_timeframe))
          (keyword_analyzer.batches tied_keywords) /\
    keyword_analyzer.related_requests events = List.length tied_keywords.
Proof.
  destruct (echo_analyze tied_keywords keyword_analyzer.default_timeframe)
    as [r events] eqn:Hrun.
  assert (Hr : exists results, r = inr results).
  { revert Hrun. vm_compute. intros [= <- _]. eauto. }
  destruct Hr as [results ->].
  exists results, events. split; [reflexivity |].
  destruct (trends_result (list string) []
              (fun t => match t with [] => true | _ => false end) (@app string)
              (inr tt) (fun _ _ => inr tt) echo_interest echo_related
              tied_keywords keyword_analyzer.default_timeframe results events Hrun)
    as (_ & Hp & Hn & _).
  split; assumption.
Defined.

Lemma dashboard_payload_witness :
  In "Past 7 days"%string dashboard.timeframe_options /\
  exists request,
    dashboard.payload "Past 7 days" dashboard.default_input = inr request /\
    (request = None <-> dashboard.keywords dashboard.default_input = []) /\
    (forall kws tf, request = Some (kws, tf) ->
       kws = dashboard.keywords dashboard.default_input /\
       (1 <= List.length kws <= 5)%nat /\
       In ("Past 7 days"%string, tf) dashboard.timeframe_map /\
       keyword_analyzer.batches kws = [kws]) /\
    (forall other,
       ~ In other dashboard.timeframe_options ->
       dashboard.keywords dashboard.default_input <> [] ->
       dashboard.payload other dashboard.default_input = inl (KeyError other)).
Proof.
  assert (Hin : In "Past 7 days"%string dashboard.timeframe_options)
    by (simpl; tauto).
  split; [exact Hin |].
  exact (dashboard_payload "Past 7 days" dashboard.default_input Hin).
Defined.

Lemma numeric_volume_run :
  analyze_keywords parse_decimal stable_sort main_analyzer table_with_numeric_volume
  = (inl (AttributeError "Can only use .str accessor with string values!"),
     setitem table_with_numeric_volume "Competition"
       (Float64Series (to_numeric parse_decimal (text ["0.1"%string])))).
Proof.
  apply (analyze_keywords_numeric_volume parse_decimal stable_sort main_analyzer
           table_with_numeric_volume (text ["0.1"%string]) [Some 1200]);
    reflexivity.
Qed.

Lemma analyze_keywords_errors_witness :
  analyze_keywords parse_decimal stable_sort main_analyzer table_with_numeric_volume
  = (inl (AttributeError "Can only use .str accessor with string values!"),
     setitem table_with_numeric_volume "Competition"
       (Float64Series (to_numeric parse_decimal (text ["0.1"%string])))) /\
  forall c, getitem table_with_numeric_volume "Competition" = inr c ->
    getitem
      (setitem table_with_numeric_volume "Competition"
         (Float64Series (to_numeric parse_decimal (text ["0.1"%string]))))
      "Competition"
    = inr (Float64Series (to_numeric parse_decimal c)).
Proof.
  split; [exact numeric_volume_run |].
  exact (proj1 (proj2 (analyze_keywords_errors parse_decimal stable_sort
                         main_analyzer table_with_numeric_volume _ _
                         numeric_volume_run))).
Defined.

Lemma result_rows_distinct_witness :
  exists out df',
    analyze_keywords parse_decimal stable_sort main_analyzer example_table
      = (inr out, df') /\
    NoDup (map (fun y => label (row y)) (opp_rows out)) /\
    List.length (opp_rows out)
      = List.length (filter (mask main_analyzer)
                       (normalized_rows parse_decimal example_table)) /\
    (List.length (opp_rows out)
     <= List.length (normalized_rows parse_decimal example_table))%nat.
Proof.
  pose proof (analyze_keywords_returns parse_decimal stable_sort main_analyzer
                example_table example_analyzable) as Hrun.
  eexists. eexists. split; [exact Hrun |].
  exact (result_rows_distinct parse_decimal stable_sort stable_sort_perm
           main_analyzer example_table _ _ Hrun).
Defined.

Lemma tighter_thresholds_keep_fewer_witness :
  min_search_volume main_analyzer <= min_search_volume strict_analyzer /\
  max_competition strict_analyzer <= max_competition main_analyzer /\
  min_cpc main_analyzer <= min_cpc strict_analyzer /\
  exists out_loose out_tight df1 df2,
    analyze_keywords parse_decimal stable_sort main_analyzer example_table
      = (inr out_loose, df1) /\
    analyze_keywords parse_decimal stable_sort strict_analyzer example_table
      = (inr out_tight, df2) /\
    (forall y, In y (opp_rows out_tight) -> In y (opp_rows out_loose)) /\
    (List.length (opp_rows out_tight) <= List.length (opp_rows out_loose))%nat.
Proof.
  assert (H1 : min_search_volume main_analyzer <= min_search_volume strict_analyzer)
    by (simpl; lra).
  assert (H2 : max_competition strict_analyzer <= max_competition main_analyzer)
    by (simpl; lra).
  assert (H3 : min_cpc main_analyzer <= min_cpc strict_analyzer) by (simpl; lra).
  pose proof (analyze_keywords_returns parse_decimal stable_sort main_analyzer
                example_table example_analyzable) as Hloose.
  pose proof (analyze_keywords_returns parse_decimal stable_sort strict_analyzer
                example_table example_analyzable) as Htight.
  split; [exact H1 |]. split; [exact H2 |]. split; [exact H3 |].
  eexists. eexists. eexists. eexists.
  split; [exact Hloose |]. split; [exact Htight |].
  exact (tighter_thresholds_keep_fewer parse_decimal stable_sort stable_sort_perm
           main_analyzer strict_analyzer example_table _ _ _ _ H1 H2 H3
           Hloose Htight).
Defined.

Lemma keywordless_analyzable : analyzable table_without_keyword.
Proof. repeat split; eexists; reflexivity. Qed.

Lemma summary_needs_keyword_column_witness :
  analyzable table_without_keyword /\
  ~ In "Keyword"%string (columns table_without_keyword) /\
  exists out df',
    analyze_keywords parse_decimal stable_sort main_analyzer table_without_keyword
      = (inr out, df') /\
    generate_summary out = inl (KeyError "Keyword").
Proof.
  assert (Hno : ~ In "Keyword"%string (columns table_without_keyword)).
  { simpl. intros [H | [H | [H | []]]]; discriminate. }
  split; [exact keywordless_analyzable |]. split; [exact Hno |].
  exact (summary_needs_keyword_column parse_decimal stable_sort main_analyzer
           table_without_keyword keywordless_analyzable Hno).
Defined.

Lemma score_at_most_100_witness :
  1200 <= 100000 /\ 0 <= 0.1 /\ calculate_opportunity_score 1200 0.1 2.5 <= 100.
Proof.
  assert (H1 : 1200 <= 100000) by lra. assert (H2 : 0 <= 0.1) by lra.
  split; [exact H1 |]. split; [exact H2 |].
  exact (score_at_most_100 1200 0.1 2.5 H1 H2).
Defined.


Lemma load_analyze_summarize_witness :
  load_keyword_data disk "keywords.csv" = inr example_table /\
  (forall e df',
     analyze_keywords parse_decimal stable_sort main_analyzer example_table
       = (inl e, df') ->
     e = AttributeError "Can only use .str accessor with string values!") /\
  (forall out df',
     analyze_keywords parse_decimal stable_sort main_analyzer example_table
       = (inr out, df') ->
     exists summary,
       generate_summary out = inr summary /\
       total_opportunities summary
         = List.length (filter (mask main_analyzer)
                          (normalized_rows parse_decimal example_table)) /\
       List.length (top_keywords summary)
         = Nat.min 5 (total_opportunities summary)).
Proof.
  assert (Hload : load_keyword_data disk "keywords.csv" = inr example_table)
    by reflexivity.
  split; [exact Hload |].
  exact (load_analyze_summarize parse_decimal stable_sort disk stable_sort_perm
           main_analyzer "keywords.csv" example_table Hload).
Defined.

End MoreWitnesses.
